(** * Kore-automate: webhook / collection reconciliation core

    A shallow embedding of the status-reconciliation subsystem of the
    repository:

    - [core_apps/integrations/paywithaccount/normalization.py]
    - [core_apps/webhooks/utils.py]
    - [core_apps/collections/idempotency.py], [core_apps/webhooks/idempotency.py]
    - [core_apps/collections/models.py], [core_apps/collections/services.py]
    - [core_apps/webhooks/models.py], [core_apps/webhooks/services.py]

    Python values are an inductive type of JSON-like values, Python
    exceptions are the [Raise] branch of a result type, and the three
    database tables the code touches (Collection, Transaction, WebhookEvent)
    are lists of records threaded through the service functions.

    Text is ASCII: [upper], [lower] and [strip] act on the ASCII letters and
    the ASCII white space, every other character is left alone.  The status
    word of a webhook takes its case mapping as a parameter. *)

From Stdlib Require Import ZArith List String Ascii Bool Lia DecimalString.
Import ListNotations.
Open Scope string_scope.

#[local] Set Warnings "-register-all".
#[local] Unset Elimination Schemes.

(** ** Python values and exceptions *)

(** A float is carried by its [repr] text: Python prints a float by the
    shortest decimal that reads back to the same float, so the text
    determines the value. *)
Inductive PyVal : Type :=
| PNone
| PBool (b : bool)
| PInt (z : Z)
| PFloat (repr : string)
| PStr (s : string)
| PList (l : list PyVal)
| PDict (d : list (string * PyVal)).

#[local] Set Elimination Schemes.

Inductive PyExc : Type :=
| AttributeError (ty attr : string)
| TypeError (msg : string)
| KeyError (key : string)
| ValueError (msg : string)
| ValidationError (msg : string)
| IntegrityError (msg : string)
| CollectionError (msg : string)
| WebhookError (msg : string)
| PayWithAccountError (msg : string)
| BackendError (msg : string).

Inductive Exc (A : Type) : Type :=
| Ret (a : A)
| Raise (e : PyExc).
Arguments Ret {A} a.
Arguments Raise {A} e.

Definition bind {A B : Type} (m : Exc A) (k : A -> Exc B) : Exc B :=
  match m with
  | Ret a => k a
  | Raise e => Raise e
  end.

Notation "x <- m ;; k" := (bind m (fun x => k))
  (at level 61, m at next level, right associativity).

Definition returns {A : Type} (m : Exc A) : Prop := exists a, m = Ret a.

(** [str(e)] of an exception, as the f-strings of the services print it. *)
Definition exc_str (e : PyExc) : string :=
  match e with
  | AttributeError ty attr =>
      "'" ++ ty ++ "' object has no attribute '" ++ attr ++ "'"
  | KeyError k => "'" ++ k ++ "'"
  | TypeError m | ValueError m | ValidationError m | IntegrityError m
  | CollectionError m | WebhookError m | PayWithAccountError m
  | BackendError m => m
  end.

(** ** Strings *)

Module Str.

Definition code (c : ascii) : nat := nat_of_ascii c.

Definition is_lower (c : ascii) : bool :=
  (97 <=? code c)%nat && (code c <=? 122)%nat.

Definition is_upper (c : ascii) : bool :=
  (65 <=? code c)%nat && (code c <=? 90)%nat.

Definition upper_char (c : ascii) : ascii :=
  if is_lower c then ascii_of_nat (code c - 32) else c.

Definition lower_char (c : ascii) : ascii :=
  if is_upper c then ascii_of_nat (code c + 32) else c.

Fixpoint map (f : ascii -> ascii) (s : string) : string :=
  match s with
  | EmptyString => EmptyString
  | String c r => String (f c) (map f r)
  end.

Definition upper : string -> string := map upper_char.
Definition lower : string -> string := map lower_char.

(** White space of [str.strip()]: TAB, LF, VT, FF, CR, FS, GS, RS, US and
    the space. *)
Definition is_space (c : ascii) : bool :=
  let n := code c in
  ((9 <=? n)%nat && (n <=? 13)%nat)
  || ((28 <=? n)%nat && (n <=? 32)%nat).

Fixpoint lstrip (s : string) : string :=
  match s with
  | EmptyString => EmptyString
  | String c r => if is_space c then lstrip r else s
  end.

Fixpoint rstrip (s : string) : string :=
  match s with
  | EmptyString => EmptyString
  | String c r =>
      match rstrip r with
      | EmptyString => if is_space c then EmptyString else String c EmptyString
      | r' => String c r'
      end
  end.

Definition strip (s : string) : string := rstrip (lstrip s).

Definition is_empty (s : string) : bool :=
  match s with EmptyString => true | _ => false end.

Fixpoint contains_char (c : ascii) (s : string) : bool :=
  match s with
  | EmptyString => false
  | String d r => Ascii.eqb c d || contains_char c r
  end.

Fixpoint join (sep : string) (l : list string) : string :=
  match l with
  | [] => ""
  | [x] => x
  | x :: r => x ++ sep ++ join sep r
  end.

(** [str.isascii()]: every character is below 128. *)
Fixpoint is_ascii (s : string) : bool :=
  match s with
  | EmptyString => true
  | String c r => (code c <? 128)%nat && is_ascii r
  end.

Definition mem (s : string) (l : list string) : bool :=
  existsb (String.eqb s) l.

End Str.

(** ** Dictionaries: association lists in insertion order *)

Module Dict.

Fixpoint lookup {V : Type} (k : string) (d : list (string * V)) : option V :=
  match d with
  | [] => None
  | (k', v) :: r => if String.eqb k k' then Some v else lookup k r
  end.

Definition mem {V : Type} (k : string) (d : list (string * V)) : bool :=
  match lookup k d with Some _ => true | None => false end.

(** [d[k] = v]: an existing key keeps its place, a new key goes last. *)
Fixpoint set {V : Type} (k : string) (v : V) (d : list (string * V))
  : list (string * V) :=
  match d with
  | [] => [(k, v)]
  | (k', v') :: r =>
      if String.eqb k k' then (k', v) :: r else (k', v') :: set k v r
  end.

(** [d.get(k, default)] *)
Definition get_default {V : Type} (k : string) (default : V)
    (d : list (string * V)) : V :=
  match lookup k d with Some v => v | None => default end.

(** [d[k]], which raises [KeyError] on a missing key. *)
Definition getitem {V : Type} (k : string) (d : list (string * V)) : Exc V :=
  match lookup k d with Some v => Ret v | None => Raise (KeyError k) end.

End Dict.

(** ** Built-ins on Python values *)

Module Py.

Definition type_name (v : PyVal) : string :=
  match v with
  | PNone => "NoneType"
  | PBool _ => "bool"
  | PInt _ => "int"
  | PFloat _ => "float"
  | PStr _ => "str"
  | PList _ => "list"
  | PDict _ => "dict"
  end.

Definition is_str (v : PyVal) : bool :=
  match v with PStr _ => true | _ => false end.

Definition is_dict (v : PyVal) : bool :=
  match v with PDict _ => true | _ => false end.

Definition is_none (v : PyVal) : bool :=
  match v with PNone => true | _ => false end.

(** [bool(v)] *)
Definition truthy (v : PyVal) : bool :=
  match v with
  | PNone => false
  | PBool b => b
  | PInt z => negb (Z.eqb z 0)
  | PFloat r => negb (String.eqb r "0.0" || String.eqb r "-0.0")
  | PStr s => negb (Str.is_empty s)
  | PList l => match l with [] => false | _ => true end
  | PDict d => match d with [] => false | _ => true end
  end.

(** [a or b]; [b] is only looked at when [a] is falsy. *)
Definition or_ (a b : Exc PyVal) : Exc PyVal :=
  x <- a ;; if truthy x then Ret x else b.

(** [v.get(k)] and [v.get(k, default)]: only a dict has the method. *)
Definition get (v : PyVal) (k : string) (default : PyVal) : Exc PyVal :=
  match v with
  | PDict d => Ret (Dict.get_default k default d)
  | _ => Raise (AttributeError (type_name v) "get")
  end.

(** [repr] of a string: single quotes unless the text has a single quote
    and no double quote; backslash, the chosen quote, TAB, LF and CR are
    escaped, other control characters print as [\xNN]. *)
Definition hex_digit (n : nat) : ascii :=
  if (n <? 10)%nat then ascii_of_nat (48 + n) else ascii_of_nat (87 + n).

Definition escape_char (quote c : ascii) : string :=
  let n := Str.code c in
  if Ascii.eqb c "\"%char then "\\"
  else if Ascii.eqb c quote then String "\"%char (String c "")
  else if (n =? 9)%nat then "\t"
  else if (n =? 10)%nat then "\n"
  else if (n =? 13)%nat then "\r"
  else if (n <? 32)%nat || (n =? 127)%nat then
    "\x" ++ String (hex_digit (n / 16)) (String (hex_digit (n mod 16)) "")
  else String c "".

Fixpoint escape (quote : ascii) (s : string) : string :=
  match s with
  | EmptyString => EmptyString
  | String c r => escape_char quote c ++ escape quote r
  end.

Definition squote : ascii := ascii_of_nat 39.
Definition dquote : ascii := ascii_of_nat 34.

Definition repr_str (s : string) : string :=
  let q :=
    if Str.contains_char squote s && negb (Str.contains_char dquote s)
    then dquote else squote in
  String q (escape q s) ++ String q "".

Definition int_str (z : Z) : string := NilZero.string_of_int (Z.to_int z).

Fixpoint repr (v : PyVal) : string :=
  match v with
  | PNone => "None"
  | PBool true => "True"
  | PBool false => "False"
  | PInt z => int_str z
  | PFloat r => r
  | PStr s => repr_str s
  | PList l => "[" ++ Str.join ", " (List.map repr l) ++ "]"
  | PDict d =>
      "{" ++ Str.join ", "
               (List.map (fun kv => repr_str (fst kv) ++ ": " ++ repr (snd kv)) d)
          ++ "}"
  end.

(** [str(v)] *)
Definition str (v : PyVal) : string :=
  match v with
  | PStr s => s
  | _ => repr v
  end.

End Py.

(** ** Status normalization
    [core_apps/integrations/paywithaccount/normalization.py] *)

Module Normalization.

Definition STATUS_SUCCESS : string := "SUCCESS".
Definition STATUS_FAILED : string := "FAILED".
Definition STATUS_PENDING : string := "PENDING".

Definition StatusMap : Type := list (string * (string * bool)).

Definition DEFAULT_STATUS_MAP : StatusMap :=
  [ ("SUCCESS", (STATUS_SUCCESS, false));
    ("SUCCESSFUL", (STATUS_SUCCESS, false));
    ("COMPLETED", (STATUS_SUCCESS, false));
    ("APPROVED", (STATUS_SUCCESS, false));
    ("CONFIRMED", (STATUS_SUCCESS, false));
    ("SETTLED", (STATUS_SUCCESS, false));
    ("PAID", (STATUS_SUCCESS, false));
    ("PROCESSED", (STATUS_SUCCESS, false));
    ("FAILED", (STATUS_FAILED, false));
    ("ERROR", (STATUS_FAILED, false));
    ("DECLINED", (STATUS_FAILED, false));
    ("REJECTED", (STATUS_FAILED, false));
    ("CANCELLED", (STATUS_FAILED, false));
    ("TIMEOUT", (STATUS_FAILED, false));
    ("EXPIRED", (STATUS_FAILED, false));
    ("ABORTED", (STATUS_FAILED, false));
    ("INVALID", (STATUS_FAILED, false));
    ("PENDING", (STATUS_PENDING, false));
    ("PROCESSING", (STATUS_PENDING, false));
    ("INITIATED", (STATUS_PENDING, false));
    ("IN_PROGRESS", (STATUS_PENDING, false));
    ("AWAITING", (STATUS_PENDING, false));
    ("QUEUED", (STATUS_PENDING, false));
    ("WAITINGFOROTP", (STATUS_PENDING, true));
    ("WAITING_FOR_OTP", (STATUS_PENDING, true));
    ("OTP_PENDING", (STATUS_PENDING, true));
    ("PENDINGVALIDATION", (STATUS_PENDING, true));
    ("PENDING_VALIDATION", (STATUS_PENDING, true));
    ("VALIDATION_REQUIRED", (STATUS_PENDING, true));
    ("AWAITING_VALIDATION", (STATUS_PENDING, true));
    ("REQUIRES_OTP", (STATUS_PENDING, true));
    ("OTP_REQUIRED", (STATUS_PENDING, true)) ].

(** [settings.PAYWITHACCOUNT_STATUS_MAP] when the settings define it; the
    settings modules of the repository do not. *)
Definition Settings : Type := option StatusMap.

Definition _get_status_map (settings : Settings) : StatusMap :=
  match settings with
  | Some m => m
  | None => DEFAULT_STATUS_MAP
  end.

Definition normalize_provider_status (settings : Settings) (raw_status : PyVal)
  : Exc (string * bool) :=
  if negb (Py.truthy raw_status) || negb (Py.is_str raw_status) then
    Ret (STATUS_PENDING, false)
  else
    match raw_status with
    | PStr s =>
        let normalized_key := Str.strip (Str.upper s) in
        let status_map := _get_status_map settings in
        if Dict.mem normalized_key status_map then
          Dict.getitem normalized_key status_map
        else Ret (STATUS_PENDING, false)
    | _ => Raise (AttributeError (Py.type_name raw_status) "upper")
    end.

End Normalization.

(** ** The collection state machine
    [core_apps/collections/idempotency.py] and the copy of the class in
    [core_apps/webhooks/idempotency.py] *)

Module CollectionsIdempotency.

Definition STATUS_HIERARCHY : list (string * nat) :=
  [ ("INITIATED", 1); ("PENDING", 2); ("PROCESSING", 3);
    ("SUCCESS", 4); ("FAILED", 4) ]%nat.

Definition TERMINAL_STATUSES : list string := ["SUCCESS"; "FAILED"].

Definition should_update (current_status new_status : string)
    (allow_override : bool) : bool :=
  if String.eqb current_status new_status then true
  else if allow_override then true
  else if Str.mem current_status TERMINAL_STATUSES then false
  else
    let current_level := Dict.get_default current_status 0%nat STATUS_HIERARCHY in
    let new_level := Dict.get_default new_status 0%nat STATUS_HIERARCHY in
    if (new_level <? current_level)%nat then false else true.

Definition get_update_fields (current_status new_status : string)
    (allow_override : bool) : option (list (string * string)) :=
  if negb (should_update current_status new_status allow_override) then None
  else Some [("status", new_status)].

End CollectionsIdempotency.

Module WebhooksIdempotency.

Definition STATUS_HIERARCHY : list (string * nat) :=
  [ ("INITIATED", 1); ("PENDING", 2); ("PROCESSING", 3);
    ("SUCCESS", 4); ("FAILED", 4) ]%nat.

Definition TERMINAL_STATUSES : list string := ["SUCCESS"; "FAILED"].

Definition should_update (current_status new_status : string)
    (allow_override : bool) : bool :=
  if String.eqb current_status new_status then true
  else if allow_override then true
  else if Str.mem current_status TERMINAL_STATUSES then false
  else
    let current_level := Dict.get_default current_status 0%nat STATUS_HIERARCHY in
    let new_level := Dict.get_default new_status 0%nat STATUS_HIERARCHY in
    if (new_level <? current_level)%nat then false else true.

Definition get_update_fields (current_status new_status : string)
    (allow_override : bool) : option (list (string * string)) :=
  if negb (should_update current_status new_status allow_override) then None
  else Some [("status", new_status)].

End WebhooksIdempotency.

(** ** Field extractors  [core_apps/webhooks/utils.py] *)

Module Utils.

(** The loop of [_get_by_path] over the keys of the path. *)
Fixpoint get_by_path_loop (node : PyVal) (path : list string) : Exc PyVal :=
  match path with
  | [] => Ret node
  | key :: rest =>
      if negb (Py.is_dict node) then Ret PNone
      else
        node' <- Py.get node key PNone ;;
        if Py.is_none node' then Ret PNone else get_by_path_loop node' rest
  end.

Definition _get_by_path (payload : PyVal) (path : list string) : Exc PyVal :=
  if negb (Py.is_dict payload) then Ret PNone
  else get_by_path_loop payload path.

(** [str(val)] does not raise on a JSON value, so the [except Exception:
    continue] of the source has no counterpart here. *)
Fixpoint _first_non_empty (payload : PyVal) (paths : list (list string))
  : Exc (option string) :=
  match paths with
  | [] => Ret None
  | path :: rest =>
      val <- _get_by_path payload path ;;
      if Py.is_none val then _first_non_empty payload rest
      else
        let s := if Py.is_str val then Str.strip (Py.str val)
                 else Py.str val in
        if String.eqb s "" then _first_non_empty payload rest
        else Ret (Some s)
  end.

Section Numeric.

(** [float(s)] on a string, a Python built-in: the float it parses, or
    the exception it raises. *)
Variable float_of_str : string -> Exc PyVal.

Fixpoint _first_numeric (payload : PyVal) (paths : list (list string))
  : Exc PyVal :=
  match paths with
  | [] => Ret PNone
  | path :: rest =>
      val <- _get_by_path payload path ;;
      if Py.is_none val then _first_numeric payload rest
      else
        match val with
        | PBool _ | PInt _ | PFloat _ => Ret val
        | PStr s =>
            match float_of_str s with
            | Ret f => Ret f
            | Raise (ValueError _) | Raise (TypeError _) =>
                _first_numeric payload rest
            | Raise e => Raise e
            end
        | _ => _first_numeric payload rest
        end
  end.

Definition extract_amount (payload : PyVal) : Exc PyVal :=
  _first_numeric payload
    [ ["amount"]; ["value"]; ["total"]; ["total_amount"]; ["totalAmount"];
      ["transaction_amount"]; ["transactionAmount"]; ["payable_amount"];
      ["payableAmount"];
      ["transaction"; "amount"]; ["transaction"; "value"];
      ["transaction"; "total"];
      ["data"; "amount"]; ["data"; "value"]; ["data"; "total"];
      ["data"; "transaction_amount"];
      ["meta"; "amount"]; ["meta"; "value"];
      ["body"; "amount"]; ["body"; "value"] ].

End Numeric.

Definition extract_request_ref (payload : PyVal) : Exc (option string) :=
  _first_non_empty payload
    [ ["request_ref"]; ["requestRef"]; ["request_reference"];
      ["requestReference"]; ["ref"];
      ["transaction"; "request_ref"]; ["transaction"; "requestRef"];
      ["transaction"; "reference"];
      ["data"; "request_ref"]; ["data"; "requestRef"]; ["data"; "reference"];
      ["meta"; "request_ref"]; ["meta"; "requestRef"];
      ["event"; "request_ref"]; ["event"; "requestRef"];
      ["payload"; "request_ref"]; ["payload"; "requestRef"] ].

Definition extract_provider_ref (payload : PyVal) : Exc (option string) :=
  _first_non_empty payload
    [ ["provider_ref"]; ["providerRef"]; ["transaction_ref"];
      ["transactionRef"]; ["txRef"]; ["tx_ref"]; ["reference"]; ["ref"];
      ["flutterwave_ref"]; ["flutterwaveRef"]; ["paystack_ref"];
      ["paystackRef"]; ["monnify_ref"]; ["monnifyRef"];
      ["transaction"; "reference"]; ["transaction"; "ref"];
      ["transaction"; "transaction_ref"]; ["transaction"; "transactionRef"];
      ["data"; "reference"]; ["data"; "transaction_ref"];
      ["data"; "transactionRef"]; ["data"; "txRef"];
      ["meta"; "provider_ref"]; ["meta"; "providerRef"];
      ["event"; "reference"] ].

Definition extract_status (payload : PyVal) : Exc (option string) :=
  _first_non_empty payload
    [ ["status"]; ["transaction_status"]; ["transactionStatus"];
      ["payment_status"]; ["paymentStatus"]; ["state"];
      ["transaction"; "status"]; ["transaction"; "state"];
      ["data"; "status"]; ["data"; "transaction_status"];
      ["data"; "transactionStatus"];
      ["event"; "status"]; ["event"; "state"];
      ["meta"; "status"]; ["response"; "status"] ].

Definition extract_currency (payload : PyVal) : Exc (option string) :=
  _first_non_empty payload
    [ ["currency"]; ["currency_code"]; ["currencyCode"]; ["currency_type"];
      ["currencyType"]; ["curr"];
      ["transaction"; "currency"]; ["transaction"; "currency_code"];
      ["data"; "currency"]; ["data"; "currency_code"]; ["data"; "currencyCode"];
      ["meta"; "currency"]; ["body"; "currency"] ].

Definition extract_event_id (payload : PyVal) : Exc (option string) :=
  _first_non_empty payload
    [ ["event_id"]; ["eventId"]; ["event"]; ["id"]; ["webhook_id"];
      ["webhookId"]; ["event_key"]; ["eventKey"];
      ["flutterwave_event_id"]; ["flutterwaveEventId"];
      ["paystack_reference"]; ["monnify_transaction_ref"];
      ["event"; "id"]; ["event"; "event_id"];
      ["data"; "event_id"]; ["data"; "eventId"]; ["data"; "id"];
      ["meta"; "event_id"]; ["meta"; "eventId"];
      ["payload"; "event_id"]; ["payload"; "id"] ].

End Utils.

(** ** The payload parser of webhook processing
    [core_apps/webhooks/services.py], class [PayloadParser] *)

Module PayloadParser.

(** The dict the extraction returns, with its three keys. *)
Record Extracted : Type := mkExtracted {
  request_ref : PyVal;
  provider_ref : PyVal;
  status : PyVal
}.

Definition getk (payload : PyVal) (k : string) : Exc PyVal :=
  Py.get payload k PNone.

(** [payload.get(outer, {}).get(k)] *)
Definition get_nested (payload : PyVal) (outer k : string) : Exc PyVal :=
  inner <- Py.get payload outer (PDict []) ;; Py.get inner k PNone.

Definition _extract_paywithaccount (payload : PyVal) : Exc Extracted :=
  request_ref <-
    Py.or_ (getk payload "request_ref")
      (Py.or_ (getk payload "requestRef")
         (Py.or_ (getk payload "ref")
            (Py.or_ (getk payload "reference")
               (get_nested payload "meta" "request_ref")))) ;;
  provider_ref <-
    Py.or_ (getk payload "provider_ref")
      (Py.or_ (getk payload "providerRef")
         (Py.or_ (getk payload "transaction_ref")
            (Py.or_ (getk payload "transactionRef")
               (Py.or_ (getk payload "reference")
                  (Py.or_ (getk payload "txRef")
                     (get_nested payload "data" "reference")))))) ;;
  status <-
    Py.or_ (getk payload "status")
      (Py.or_ (get_nested payload "transaction" "status")
         (Py.or_ (get_nested payload "data" "status")
            (Ret (PStr "unknown")))) ;;
  Ret (mkExtracted request_ref provider_ref status).

Definition _extract_generic (payload : PyVal) : Exc Extracted :=
  request_ref <-
    Py.or_ (getk payload "request_ref")
      (Py.or_ (getk payload "requestRef")
         (Py.or_ (getk payload "ref") (getk payload "id"))) ;;
  provider_ref <-
    Py.or_ (getk payload "provider_ref")
      (Py.or_ (getk payload "providerRef")
         (Py.or_ (getk payload "transaction_ref")
            (getk payload "reference"))) ;;
  status <- Py.get payload "status" (PStr "unknown") ;;
  Ret (mkExtracted request_ref provider_ref status).

Definition extract_from_payload (payload : PyVal) (provider : string)
  : Exc Extracted :=
  if Str.mem (Str.lower provider) ["paywithaccount"; "onepipe"] then
    _extract_paywithaccount payload
  else _extract_generic payload.

End PayloadParser.

(** ** The tables *)

(** The row of [collections/models.py], with the fields the services use.
    The model declares no [metadata] field: what the services do with
    [collection.metadata] is in [CollectionsService.metadata].

    The three amounts are [DecimalField]s with two decimal places, held here
    in hundredths. *)
Record Collection : Type := mkCollection {
  c_id : nat;
  c_request_ref : string;
  c_provider_ref : PyVal;
  c_status : string;
  c_amount_allocation : Z;
  c_kore_fee : Z;
  c_amount_total : Z;
  c_raw_response : PyVal
}.

Record Transaction : Type := mkTransaction {
  t_id : nat;
  t_collection : nat;
  t_type : string;
  t_status : string
}.

Record WebhookEvent : Type := mkWebhookEvent {
  we_id : nat;
  we_provider : string;
  we_event_id : option string;
  we_request_ref : PyVal;
  we_payload : PyVal;
  we_signature : string;
  we_status : string;
  we_error : string;
  we_processed_at : option nat
}.

(** The database, and the ids handed to the task queue. *)
Record DB : Type := mkDB {
  collections : list Collection;
  transactions : list Transaction;
  events : list WebhookEvent;
  queue : list nat
}.

Module Store.

Definition set_collections (db : DB) (cs : list Collection) : DB :=
  mkDB cs (transactions db) (events db) (queue db).

Definition set_transactions (db : DB) (ts : list Transaction) : DB :=
  mkDB (collections db) ts (events db) (queue db).

Definition set_events (db : DB) (es : list WebhookEvent) : DB :=
  mkDB (collections db) (transactions db) es (queue db).

Definition enqueue (db : DB) (id : nat) : DB :=
  mkDB (collections db) (transactions db) (events db) (queue db ++ [id]).

(** [Collection.objects.get(request_ref=v)]: the CharField lookup compares
    with [str(v)]; [request_ref] is unique, so the first match is the match. *)
Definition get_collection (db : DB) (request_ref : PyVal) : option Collection :=
  find (fun c => String.eqb (c_request_ref c) (Py.str request_ref))
       (collections db).

(** [Collection.clean], run by [Collection.save]. *)
Definition clean (c : Collection) : Exc unit :=
  if negb (Z.eqb (c_amount_total c) (c_amount_allocation c + c_kore_fee c))
  then Raise (ValidationError
                "amount_total must equal amount_allocation + kore_fee")
  else Ret tt.

(** [collection.save(...)]: the row with this primary key is rewritten. *)
Definition save_collection (db : DB) (c : Collection) : Exc DB :=
  _ <- clean c ;;
  Ret (set_collections db
         (map (fun x => if Nat.eqb (c_id x) (c_id c) then c else x)
              (collections db))).

Definition set_t_status (t : Transaction) (st : string) : Transaction :=
  mkTransaction (t_id t) (t_collection t) (t_type t) st.

(** [Transaction.objects.filter(collection=c, status="PENDING")
      .update(status=st)] *)
Definition update_pending_transactions (db : DB) (c : Collection)
    (st : string) : DB :=
  set_transactions db
    (map (fun t =>
            if Nat.eqb (t_collection t) (c_id c)
               && String.eqb (t_status t) "PENDING"
            then set_t_status t st else t)
         (transactions db)).

Definition get_event (db : DB) (id : nat) : option WebhookEvent :=
  find (fun e => Nat.eqb (we_id e) id) (events db).

Definition get_event_by_event_id (db : DB) (event_id : string)
  : option WebhookEvent :=
  find (fun e => match we_event_id e with
                 | Some x => String.eqb x event_id
                 | None => false
                 end) (events db).

Definition save_event (db : DB) (e : WebhookEvent) : DB :=
  set_events db
    (map (fun x => if Nat.eqb (we_id x) (we_id e) then e else x) (events db)).

(** [WebhookEvent.objects.create(...)] with status RECEIVED: [event_id] is
    unique when it is not null, and the insert raises [IntegrityError] when
    a row already holds it.  The fresh primary key (a UUID in the source) is
    the number of rows so far; rows are never deleted. *)
Definition create_event (db : DB) (provider : string)
    (event_id : option string) (request_ref payload : PyVal)
    (signature : string) : Exc (WebhookEvent * DB) :=
  let row := mkWebhookEvent (List.length (events db)) provider event_id
               request_ref payload signature "RECEIVED" "" None in
  match event_id with
  | Some e =>
      match get_event_by_event_id db e with
      | Some _ =>
          Raise (IntegrityError
                   "UNIQUE constraint failed: webhooks_webhookevent.event_id")
      | None => Ret (row, set_events db (events db ++ [row]))
      end
  | None => Ret (row, set_events db (events db ++ [row]))
  end.

End Store.

(** ** The collection service  [core_apps/collections/services.py]

    Each method is [@db_transaction.atomic]: when it raises, nothing it wrote
    is kept, so a raising call leaves the caller with the database it had. *)

Module CollectionsService.

Definition with_status (c : Collection) (st : string) : Collection :=
  mkCollection (c_id c) (c_request_ref c) (c_provider_ref c) st
    (c_amount_allocation c) (c_kore_fee c) (c_amount_total c)
    (c_raw_response c).

Definition with_provider_ref (c : Collection) (v : PyVal) : Collection :=
  mkCollection (c_id c) (c_request_ref c) v (c_status c)
    (c_amount_allocation c) (c_kore_fee c) (c_amount_total c)
    (c_raw_response c).

Definition with_raw_response (c : Collection) (v : PyVal) : Collection :=
  mkCollection (c_id c) (c_request_ref c) (c_provider_ref c) (c_status c)
    (c_amount_allocation c) (c_kore_fee c) (c_amount_total c) v.

(** [collection.metadata].  The model class declares no field of that name
    and nothing in the repository assigns the attribute on an instance, so
    the attribute lookup raises [AttributeError]; the services go on as if
    it gave a dict. *)
Definition metadata (collection : Collection) : Exc (list (string * PyVal)) :=
  Raise (AttributeError "Collection" "metadata").

(** The [status_map] of [update_collection_from_webhook]. *)
Definition webhook_status_map : list (string * string) :=
  [ ("success", "SUCCESS"); ("completed", "SUCCESS"); ("failed", "FAILED");
    ("pending", "INITIATED"); ("processing", "INITIATED");
    ("initiated", "INITIATED") ].

(** The dict literal of the transaction cascade, with its [.get] default. *)
Definition transaction_status_of (normalized_status : string) : string :=
  Dict.get_default normalized_status "PENDING"
    [ ("SUCCESS", "SUCCESS"); ("FAILED", "FAILED"); ("CANCELLED", "FAILED");
      ("INITIATED", "PENDING") ].

Section StatusWord.

(** [str.lower] and [str.upper] on the status word of a webhook.  Python
    maps every cased letter of Unicode; on ASCII text the two methods are
    [Str.lower] and [Str.upper]. *)
Variable lower upper : string -> string.

(** [status_map.get(new_status.lower(), new_status.upper())] *)
Definition normalize_webhook_status (new_status : string) : string :=
  Dict.get_default (lower new_status) (upper new_status) webhook_status_map.

Definition update_collection_from_webhook (db : DB)
    (request_ref provider_ref new_status payload response_body : PyVal)
    (allow_override : bool) : Exc (Collection * DB) :=
  normalized_status <-
    match new_status with
    | PStr s => Ret (normalize_webhook_status s)
    | v => Raise (AttributeError (Py.type_name v) "lower")
    end ;;
  collection <-
    match Store.get_collection db request_ref with
    | Some c => Ret c
    | None =>
        Raise (CollectionError
                 ("Collection not found for request_ref=" ++ Py.str request_ref))
    end ;;
  let should_update :=
    CollectionsIdempotency.should_update (c_status collection)
      normalized_status allow_override in
  let collection :=
    if should_update then with_status collection normalized_status
    else collection in
  let collection :=
    if Py.truthy provider_ref then with_provider_ref collection provider_ref
    else collection in
  let collection :=
    if Py.truthy response_body then with_raw_response collection response_body
    else collection in
  (* if "webhook_payload" not in collection.metadata: ... *)
  md <- metadata collection ;;
  let md :=
    if negb (Dict.mem "webhook_payload" md)
    then Dict.set "webhook_payload" payload md else md in
  db <- Store.save_collection db collection ;;
  if should_update then
    let transaction_status := transaction_status_of normalized_status in
    Ret (collection,
         Store.update_pending_transactions db collection transaction_status)
  else Ret (collection, db).

End StatusWord.

(** What the [try] blocks of [validate_collection] and
    [query_collection_status] do with an exception. *)
Definition wrap_errors (provider_msg unexpected_msg : string)
    {A : Type} (m : Exc A) : Exc A :=
  match m with
  | Ret a => Ret a
  | Raise (PayWithAccountError msg) =>
      Raise (CollectionError (provider_msg ++ msg))
  | Raise e => Raise (CollectionError (unexpected_msg ++ exc_str e))
  end.

(** [response_json.get('status') or response_json.get('transaction_status')] *)
Definition response_status (response_json : PyVal) : Exc PyVal :=
  Py.or_ (Py.get response_json "status" PNone)
         (Py.get response_json "transaction_status" PNone).

(** Both methods spell the choice of the new status as the same
    four-branch conditional. *)
Definition new_status_of (normalized_status : string) (needs_validation : bool)
  : string :=
  if String.eqb normalized_status "SUCCESS" then "SUCCESS"
  else if String.eqb normalized_status "FAILED" then "FAILED"
  else if needs_validation then "PENDING"
  else "PENDING".

Definition validation_field_names : list string :=
  ["validation_ref"; "session_id"; "otp_reference"; "challenge_ref";
   "auth_token"].

Fixpoint collect_validation_fields (response_json : list (string * PyVal))
    (fields : list string) (acc : list (string * PyVal))
  : list (string * PyVal) :=
  match fields with
  | [] => acc
  | f :: rest =>
      match Dict.lookup f response_json with
      | Some v => collect_validation_fields response_json rest (Dict.set f v acc)
      | None => collect_validation_fields response_json rest acc
      end
  end.

Section Provider.

Variable settings : Normalization.Settings.
(** [timezone.now().isoformat()] *)
Variable now_iso : string.

(** [reply] is what [self.pwa_client.validate(...)] gives: the [data] of
    the result, or the exception of the client.  The guard on
    [collection.metadata] stands before the [try]. *)
Definition validate_collection (db : DB) (collection : Collection)
    (reply : Exc PyVal) : Exc (Collection * DB) :=
  if negb (String.eqb (c_status collection) "PENDING") then
    Raise (CollectionError
             ("Collection status is " ++ c_status collection
              ++ ", must be PENDING to validate"))
  else
    md <- metadata collection ;;
    if match md with [] => true | _ => false end
       || negb (Py.truthy (Dict.get_default "needs_validation" PNone md))
    then Raise (CollectionError "Collection does not require validation")
    else
      wrap_errors "Validation failed with provider: "
                  "Unexpected error during validation: "
        (response_json <- reply ;;
         provider_status <- response_status response_json ;;
         norm <-
           Normalization.normalize_provider_status settings provider_status ;;
         let normalized_status := fst norm in
         let needs_validation := snd norm in
         let new_status := new_status_of normalized_status needs_validation in
         let collection := with_status collection new_status in
         let collection := with_raw_response collection response_json in
         md <- metadata collection ;;
         let md := Dict.set "normalized_status" (PStr normalized_status) md in
         let md := Dict.set "needs_validation" (PBool needs_validation) md in
         let md := Dict.set "validation_attempt_at" (PStr now_iso) md in
         let md :=
           if needs_validation && negb (Dict.mem "validation_fields" md) then
             match response_json with
             | PDict r =>
                 match collect_validation_fields r validation_field_names [] with
                 | [] => md
                 | vf => Dict.set "validation_fields" (PDict vf) md
                 end
             | _ => md
             end
           else md in
         db <- Store.save_collection db collection ;;
         let transaction_status :=
           if String.eqb new_status "PENDING" then "PENDING" else new_status in
         Ret (collection,
              Store.update_pending_transactions db collection
                transaction_status)).

(** [reply] is what [self.pwa_client.query(payload)] gives. *)
Definition query_collection_status (db : DB) (collection : Collection)
    (reply : Exc PyVal) : Exc (Collection * DB) :=
  let reference :=
    if Py.truthy (c_provider_ref collection) then c_provider_ref collection
    else PStr (c_request_ref collection) in
  if negb (Py.truthy reference) then
    Raise (CollectionError
             "Cannot query status: no provider_ref or request_ref available")
  else
    wrap_errors "Query failed with provider: "
                "Unexpected error during status query: "
      (response_json <- reply ;;
       provider_status <- response_status response_json ;;
       norm <- Normalization.normalize_provider_status settings provider_status ;;
       let normalized_status := fst norm in
       let needs_validation := snd norm in
       let new_status := new_status_of normalized_status needs_validation in
       if negb (String.eqb (c_status collection) new_status) then
         let collection := with_status collection new_status in
         let collection := with_raw_response collection response_json in
         md <- metadata collection ;;
         let md := Dict.set "normalized_status" (PStr normalized_status) md in
         let md := Dict.set "needs_validation" (PBool needs_validation) md in
         let md := Dict.set "queried_at" (PStr now_iso) md in
         db <- Store.save_collection db collection ;;
         let transaction_status :=
           if String.eqb new_status "PENDING" then "PENDING" else new_status in
         Ret (collection,
              Store.update_pending_transactions db collection
                transaction_status)
       else Ret (collection, db)).

End Provider.

End CollectionsService.

(** ** The processing lock  [core_apps/webhooks/idempotency.py] *)

Module Locking.

(** One reply of Redis to [SET lock:key lock_id NX EX timeout]. *)
Inductive RedisReply : Type :=
| SetOk
| SetBusy
| SetRaises (e : PyExc).

(** What [get_redis_client()] finds when a lock is built.  For a client,
    [set_replies] are the replies to the polls that fit in [wait_timeout]
    and [release_reply] is the outcome of the release script. *)
Inductive Backend : Type :=
| NoRedis
| ClientRaises (e : PyExc)
| Redis (set_replies : list RedisReply) (release_reply : Exc bool).

Record ProcessingLock : Type := mkLock {
  key : string;
  timeout : nat;
  wait_timeout : nat;
  redis_client : option (list RedisReply * Exc bool);
  acquired : bool
}.

Definition set_acquired (l : ProcessingLock) (b : bool) : ProcessingLock :=
  mkLock (key l) (timeout l) (wait_timeout l) (redis_client l) b.

(** [ProcessingLock.__init__] *)
Definition init (backend : Backend) (k : string) (t w : nat)
  : Exc ProcessingLock :=
  match backend with
  | NoRedis => Ret (mkLock k t w None false)
  | ClientRaises e => Raise e
  | Redis replies rel => Ret (mkLock k t w (Some (replies, rel)) false)
  end.

Definition _acquire_db (l : ProcessingLock) : bool * ProcessingLock :=
  (true, set_acquired l true).

(** The polling loop; the replies run out when [wait_timeout] is over. *)
Fixpoint _acquire_redis (l : ProcessingLock) (replies : list RedisReply)
  : bool * ProcessingLock :=
  match replies with
  | [] => (false, l)
  | SetOk :: _ => (true, set_acquired l true)
  | SetRaises _ :: _ => _acquire_db l
  | SetBusy :: rest => _acquire_redis l rest
  end.

Definition acquire (l : ProcessingLock) : bool * ProcessingLock :=
  match redis_client l with
  | Some (replies, _) => _acquire_redis l replies
  | None => _acquire_db l
  end.

Definition _release_redis (l : ProcessingLock) (rel : Exc bool)
  : bool * ProcessingLock :=
  match rel with
  | Ret result => (result, set_acquired l false)
  | Raise _ => (false, set_acquired l false)
  end.

Definition release (l : ProcessingLock) : bool * ProcessingLock :=
  if negb (acquired l) then (false, l)
  else
    match redis_client l with
    | Some (_, rel) => _release_redis l rel
    | None => (true, set_acquired l false)
    end.

(** The context manager [processing_lock]: the result of [acquire] is
    dropped, the body runs, and [release] runs on every way out. *)
Definition processing_lock {A : Type} (backend : Backend) (k : string)
    (t w : nat) (body : ProcessingLock -> Exc A) : Exc A :=
  lock <- init backend k t w ;;
  let lock := snd (acquire lock) in
  let result := body lock in
  let _ := release lock in
  result.

End Locking.

(** ** Webhook ingestion  [core_apps/webhooks/services.py] *)

Module WebhookService.

Definition finished (e : WebhookEvent) (st err : string) (now : nat)
  : WebhookEvent :=
  mkWebhookEvent (we_id e) (we_provider e) (we_event_id e) (we_request_ref e)
    (we_payload e) (we_signature e) st err (Some now).

Section Service.

(** The lock backend of the deployment, whether the Celery task can be
    imported, and [timezone.now()]. *)
Variable backend : Locking.Backend.
Variable celery : bool.
Variable now : nat.

(** The parsing half of the [try] block of [process_event]: the arguments
    that go to [update_collection_from_webhook]. *)
Definition parse_event (webhook_event : WebhookEvent)
  : Exc (PyVal * PyVal * PyVal) :=
  let payload := we_payload webhook_event in
  extracted <-
    PayloadParser.extract_from_payload payload (we_provider webhook_event) ;;
  let request_ref := PayloadParser.request_ref extracted in
  let provider_ref := PayloadParser.provider_ref extracted in
  let status := PayloadParser.status extracted in
  if negb (Py.truthy request_ref) then
    Raise (WebhookError "Could not extract request_ref from webhook payload")
  else
    let status := if negb (Py.truthy status) then PStr "pending" else status in
    Ret (request_ref,
         (if Py.truthy provider_ref then provider_ref else PStr ""),
         status).

(** The [try] block of [process_event] up to the update.  The status word
    is held as ASCII text; the update gives the same result under every case
    mapping (lemma [update_collection_from_webhook_raises]). *)
Definition process_event_try (db : DB) (webhook_event : WebhookEvent)
  : Exc (Collection * DB) :=
  args <- parse_event webhook_event ;;
  let '(request_ref, provider_ref, status) := args in
  let lock_key := "webhook_processing:" ++ Py.str request_ref in
  let update :=
    CollectionsService.update_collection_from_webhook Str.lower Str.upper db
      request_ref provider_ref status (we_payload webhook_event) PNone false in
  match Locking.processing_lock backend lock_key 30 10 (fun _ => update) with
  | Ret r => Ret r
  | Raise lock_err => update
  end.

Definition process_event (db : DB) (webhook_event_id : nat)
  : Exc (WebhookEvent * DB) :=
  match Store.get_event db webhook_event_id with
  | None =>
      Raise (WebhookError
               ("WebhookEvent not found: "
                ++ Py.int_str (Z.of_nat webhook_event_id)))
  | Some webhook_event =>
      match process_event_try db webhook_event with
      | Ret (_, db') =>
          let e := finished webhook_event "PROCESSED"
                     (we_error webhook_event) now in
          Ret (e, Store.save_event db' e)
      | Raise (CollectionError m) =>
          let e := finished webhook_event "FAILED"
                     ("CollectionError: " ++ m) now in
          Ret (e, Store.save_event db e)
      | Raise (PayWithAccountError m) =>
          let e := finished webhook_event "FAILED"
                     ("PayWithAccountError: " ++ m) now in
          Ret (e, Store.save_event db e)
      | Raise err =>
          let e := finished webhook_event "FAILED"
                     ("Unexpected error: " ++ exc_str err) now in
          Ret (e, Store.save_event db e)
      end
  end.

(** What the three [except] clauses of [process_event] store in [error]. *)
Definition error_text (err : PyExc) : string :=
  match err with
  | CollectionError m => "CollectionError: " ++ m
  | PayWithAccountError m => "PayWithAccountError: " ++ m
  | err => "Unexpected error: " ++ exc_str err
  end.

Definition process_webhook_event (db : DB) (event_id : nat)
  : Exc (WebhookEvent * DB) :=
  process_event db event_id.

Definition opt_truthy (o : option string) : bool :=
  match o with
  | Some s => negb (Str.is_empty s)
  | None => false
  end.

Definition or_empty (o : option string) : string :=
  match o with
  | Some s => s
  | None => ""
  end.

(** [hmac.new(secret, payload, sha256).hexdigest()], a library function. *)
Variable hmac_sha256_hexdigest : string -> string -> string.
(** [settings.PWA_WEBHOOK_SECRET] *)
Variable webhook_secret : string.

(** [hmac.compare_digest(a, b)] on two [str]: a [TypeError] unless both
    are ASCII. *)
Definition compare_digest (a b : string) : Exc bool :=
  if Str.is_ascii a && Str.is_ascii b then Ret (String.eqb a b)
  else Raise (TypeError
                "comparing strings with non-ASCII characters is not supported").

Definition verify_signature (payload_str signature_header provider : string)
  : Exc bool :=
  if Str.is_empty webhook_secret then Ret true
  else if Str.mem (Str.lower provider) ["paywithaccount"; "onepipe"] then
    compare_digest (hmac_sha256_hexdigest webhook_secret payload_str)
                   signature_header
  else Ret true.

(** [concurrent] is what other workers commit between the duplicate check
    and the insert; a delivery handled alone has the identity there. *)
Definition receive_event (concurrent : DB -> DB) (db : DB)
    (provider : string) (payload : PyVal) (signature_header : option string)
    (request_ref : PyVal) (event_id payload_str : option string)
  : Exc (WebhookEvent * DB) :=
  verified <-
    (if opt_truthy signature_header && opt_truthy payload_str
     then verify_signature (or_empty payload_str) (or_empty signature_header)
            provider
     else Ret true) ;;
  if negb verified
  then Raise (WebhookError "Webhook signature verification failed")
  else
    extracted <- PayloadParser.extract_from_payload payload provider ;;
    let request_ref :=
      if negb (Py.truthy request_ref)
         && Py.truthy (PayloadParser.request_ref extracted)
      then PayloadParser.request_ref extracted else request_ref in
    event_id <-
      (if negb (opt_truthy event_id) then Utils.extract_event_id payload
       else Ret event_id) ;;
    let existing :=
      if opt_truthy event_id
      then Store.get_event_by_event_id db (or_empty event_id)
      else None in
    match existing with
    | Some existing_event => Ret (existing_event, db)
    | None =>
        let db := concurrent db in
        match Store.create_event db provider event_id request_ref payload
                (or_empty signature_header) with
        | Raise (IntegrityError m) =>
            if opt_truthy event_id then
              match Store.get_event_by_event_id db (or_empty event_id) with
              | Some webhook_event => Ret (webhook_event, db)
              | None => Raise (IntegrityError m)
              end
            else Raise (IntegrityError m)
        | Raise e => Raise e
        | Ret (webhook_event, db) =>
            if celery then Ret (webhook_event, Store.enqueue db (we_id webhook_event))
            else
              r <- process_event db (we_id webhook_event) ;;
              Ret (webhook_event, snd r)
        end
    end.

Definition receive_paywithaccount_event (db : DB) (payload : PyVal)
    (signature : option string) : Exc (WebhookEvent * DB) :=
  extracted <- PayloadParser._extract_paywithaccount payload ;;
  let request_ref := PayloadParser.request_ref extracted in
  r <- Store.create_event db "paywithaccount" None request_ref payload
         (or_empty signature) ;;
  let '(webhook_event, db) := r in
  if celery then Ret (webhook_event, Store.enqueue db (we_id webhook_event))
  else
    match process_webhook_event db (we_id webhook_event) with
    | Ret (_, db') => Ret (webhook_event, db')
    | Raise _ => Ret (webhook_event, db)
    end.

(** What the Celery worker does with a queued id. *)
Definition run_task (db : DB) (event_id : nat) : Exc (WebhookEvent * DB) :=
  process_webhook_event db event_id.

End Service.

End WebhookService.

(** ** The vocabulary of the specification *)

Module Spec.

(** The rank of section 4.3: INITIATED=1, PENDING=2, PROCESSING=3,
    SUCCESS=4, FAILED=4, anything else 0. *)
Definition rank (s : string) : nat :=
  if String.eqb s "INITIATED" then 1
  else if String.eqb s "PENDING" then 2
  else if String.eqb s "PROCESSING" then 3
  else if String.eqb s "SUCCESS" then 4
  else if String.eqb s "FAILED" then 4
  else 0.

Definition terminal (s : string) : Prop := s = "SUCCESS" \/ s = "FAILED".

(** The closed enum of the normalizer. *)
Definition internal_statuses : list string := ["SUCCESS"; "FAILED"; "PENDING"].

Definition success_terms : list string :=
  ["SUCCESS"; "SUCCESSFUL"; "COMPLETED"; "APPROVED"; "CONFIRMED"; "SETTLED";
   "PAID"; "PROCESSED"].

Definition failure_terms : list string :=
  ["FAILED"; "ERROR"; "DECLINED"; "REJECTED"; "CANCELLED"; "TIMEOUT";
   "EXPIRED"; "ABORTED"; "INVALID"].

Definition otp_terms : list string :=
  ["WAITINGFOROTP"; "WAITING_FOR_OTP"; "OTP_PENDING"; "PENDINGVALIDATION";
   "PENDING_VALIDATION"; "VALIDATION_REQUIRED"; "AWAITING_VALIDATION";
   "REQUIRES_OTP"; "OTP_REQUIRED"].

(** The transaction cascade of section 8: SUCCESS->SUCCESS, FAILED->FAILED,
    CANCELLED->FAILED, anything else->PENDING. *)
Definition cascade (normalized_status : string) : string :=
  if String.eqb normalized_status "SUCCESS" then "SUCCESS"
  else if String.eqb normalized_status "FAILED" then "FAILED"
  else if String.eqb normalized_status "CANCELLED" then "FAILED"
  else "PENDING".

(** A status map whose values all lie in the closed enum. *)
Definition well_formed (m : Normalization.StatusMap) : Prop :=
  forall k s b, In (k, (s, b)) m -> In s internal_statuses.

End Spec.

(** ** Sample data *)

Module Example.

(** A collection with request reference [r1], a DEBIT and a FEE line. *)
Definition collection_r1 (status : string) : Collection :=
  mkCollection 1 "r1" PNone status 1000 50 1050 PNone.

Definition db_r1 (status tx_status : string) : DB :=
  mkDB [collection_r1 status]
       [mkTransaction 1 1 "DEBIT" tx_status; mkTransaction 2 1 "FEE" tx_status]
       [] [].

Definition delivery : PyVal :=
  PDict [("event_id", PStr "evt_1"); ("request_ref", PStr "r1");
         ("status", PStr "success")].

(** A stored delivery, not yet processed. *)
Definition received (id : nat) (provider : string) (payload : PyVal)
  : WebhookEvent :=
  mkWebhookEvent id provider None PNone payload "" "RECEIVED" "" None.

Definition with_events (db : DB) (es : list WebhookEvent) : DB :=
  Store.set_events db es.

Definition events_after {A : Type} (m : Exc (A * DB)) : list WebhookEvent :=
  match m with
  | Ret (_, db) => events db
  | Raise _ => []
  end.

(** The same delivery handed twice to [receive_paywithaccount_event], the
    entry point of the webhook view, processed inline. *)
Definition twice_paywithaccount : Exc (WebhookEvent * DB) :=
  r <- WebhookService.receive_paywithaccount_event Locking.NoRedis false 1
         (db_r1 "INITIATED" "PENDING") delivery None ;;
  WebhookService.receive_paywithaccount_event Locking.NoRedis false 2
    (snd r) delivery None.

(** The same delivery handed twice to [receive_event], with no secret
    configured and no concurrent worker. *)
Definition receive_alone (now : nat) (db : DB) : Exc (WebhookEvent * DB) :=
  WebhookService.receive_event Locking.NoRedis false now (fun _ _ => "") ""
    (fun d => d) db "paywithaccount" delivery None PNone None None.

Definition twice_receive_event : Exc (WebhookEvent * DB) :=
  r <- receive_alone 1 (db_r1 "INITIATED" "PENDING") ;;
  receive_alone 2 (snd r).

(** [receive_event] losing the insert to a concurrent worker that stored the
    same event id between the duplicate check and the insert. *)
Definition winner : WebhookEvent :=
  mkWebhookEvent 0 "paywithaccount" (Some "evt_1") (PStr "r1") delivery ""
    "RECEIVED" "" None.

Definition receive_losing_race : Exc (WebhookEvent * DB) :=
  WebhookService.receive_event Locking.NoRedis false 1 (fun _ _ => "") ""
    (fun d => Store.set_events d (events d ++ [winner]))
    (db_r1 "INITIATED" "PENDING") "paywithaccount" delivery None PNone None None.

End Example.

(** ** Runs of calls *)

Module Runs.

(** One status-updating operation on the collection of a request reference:
    a webhook update without override, a provider poll or a validation of
    the stored row, the last two with the time of the call and what the
    provider client gives. *)
Inductive Operation : Type :=
| Webhook (provider_ref new_status payload response_body : PyVal)
| Poll (now_iso : string) (reply : Exc PyVal)
| Validation (now_iso : string) (reply : Exc PyVal).

(** The database a call leaves: its own when it returns, the caller's when
    it raises (every method is atomic). *)
Definition db_after {A : Type} (db : DB) (m : Exc (A * DB)) : DB :=
  match m with
  | Ret (_, db') => db'
  | Raise _ => db
  end.

Section Run.

Variable lower upper : string -> string.
Variable settings : Normalization.Settings.
Variable request_ref : PyVal.

Definition apply (db : DB) (op : Operation) : DB :=
  match op with
  | Webhook provider_ref new_status payload response_body =>
      db_after db
        (CollectionsService.update_collection_from_webhook lower upper db
           request_ref provider_ref new_status payload response_body false)
  | Poll now_iso reply =>
      match Store.get_collection db request_ref with
      | Some c =>
          db_after db
            (CollectionsService.query_collection_status settings now_iso db c
               reply)
      | None => db
      end
  | Validation now_iso reply =>
      match Store.get_collection db request_ref with
      | Some c =>
          db_after db
            (CollectionsService.validate_collection settings now_iso db c reply)
      | None => db
      end
  end.

Definition run (db : DB) (ops : list Operation) : DB := fold_left apply ops db.

End Run.

(** A key the normalizer can look up: its own upper-cased, trimmed form. *)
Definition normal_key (k : string) : bool :=
  String.eqb (Str.strip (Str.upper k)) k.

End Runs.

(** ** What one candidate path yields *)

Module Candidates.

(** The text [_first_non_empty] takes from one path: the value found there,
    as a string (trimmed when it is one), when there is a value and the text
    is not empty. *)
Definition text_at (payload : PyVal) (path : list string) : option string :=
  match Utils._get_by_path payload path with
  | Ret val =>
      if Py.is_none val then None
      else
        let s := if Py.is_str val then Str.strip (Py.str val) else Py.str val in
        if String.eqb s "" then None else Some s
  | Raise _ => None
  end.

(** The five extractors of [webhooks/utils.py] that return a string. *)
Definition string_extractors : list (PyVal -> Exc (option string)) :=
  [Utils.extract_request_ref; Utils.extract_provider_ref; Utils.extract_status;
   Utils.extract_currency; Utils.extract_event_id].

End Candidates.

(** ** The event cache
    [core_apps/webhooks/idempotency.py], class [IdempotencyChecker] *)

Module IdempotencyChecker.

(** Redis as the checker uses it: keys with their value and the time they
    expire at, on a server that answers or raises. *)
Record Redis : Type := mkRedis {
  entries : list (string * (string * nat));
  up : bool
}.

(** [GET key] at time [now] *)
Definition redis_get (r : Redis) (now : nat) (key : string)
  : Exc (option string) :=
  if up r then
    Ret (match Dict.lookup key (entries r) with
         | Some (value, expires) =>
             if (now <? expires)%nat then Some value else None
         | None => None
         end)
  else Raise (BackendError "Connection refused").

(** [SETEX key ttl value] at time [now]; Redis refuses a zero expiry. *)
Definition redis_setex (r : Redis) (now : nat) (key : string) (ttl : nat)
    (value : string) : Exc Redis :=
  if up r then
    if (ttl =? 0)%nat then
      Raise (BackendError "invalid expire time in 'setex' command")
    else Ret (mkRedis (Dict.set key (value, now + ttl) (entries r)) true)
  else Raise (BackendError "Connection refused").

Definition key_of (event_id : string) : string := "event_id:" ++ event_id.

Section Json.

(** [json.dumps] and [json.loads], library functions. *)
Variable json_dumps : PyVal -> Exc string.
Variable json_loads : string -> Exc PyVal.

Definition _get_cached_redis (r : Redis) (now : nat) (event_id : string)
  : PyVal :=
  match redis_get r now (key_of event_id) with
  | Ret (Some cached) =>
      if negb (Str.is_empty cached) then
        match json_loads cached with
        | Ret v => v
        | Raise _ => PNone
        end
      else PNone
  | Ret None => PNone
  | Raise _ => PNone
  end.

Definition get_cached_event_id (redis_client : option Redis) (now : nat)
    (event_id : option string) : PyVal :=
  if negb (WebhookService.opt_truthy event_id) then PNone
  else
    match redis_client with
    | Some r => _get_cached_redis r now (WebhookService.or_empty event_id)
    | None => PNone
    end.

(** The arguments of [setex] are evaluated first, so a [json.dumps] that
    raises is caught like a Redis error. *)
Definition _cache_redis (r : Redis) (now : nat) (event_id : string)
    (result : PyVal) (ttl : nat) : bool * Redis :=
  match json_dumps result with
  | Ret text =>
      match redis_setex r now (key_of event_id) ttl text with
      | Ret r' => (true, r')
      | Raise _ => (false, r)
      end
  | Raise _ => (false, r)
  end.

Definition cache_event_result (redis_client : option Redis) (now : nat)
    (event_id : option string) (result : PyVal) (ttl : nat)
  : bool * option Redis :=
  if negb (WebhookService.opt_truthy event_id) then (false, redis_client)
  else
    match redis_client with
    | Some r =>
        let '(ok, r') :=
          _cache_redis r now (WebhookService.or_empty event_id) result ttl in
        (ok, Some r')
    | None => (false, None)
    end.

End Json.

End IdempotencyChecker.

(** * Proofs *)

(** ** Strings and dictionaries *)

Lemma string_eqb_false_iff (a b : string) : String.eqb a b = false <-> a <> b.
Proof.
  destruct (String.eqb_spec a b); split; congruence.
Qed.

Lemma str_mem_In (s : string) (l : list string) : Str.mem s l = true <-> In s l.
Proof.
  unfold Str.mem. rewrite existsb_exists. split.
  - intros [x [Hin Heq]]. apply String.eqb_eq in Heq. now subst.
  - intros Hin. exists s. split; [assumption | apply String.eqb_refl].
Qed.

Lemma dict_lookup_In {V : Type} (k : string) (d : list (string * V)) (v : V) :
  Dict.lookup k d = Some v -> In (k, v) d.
Proof.
  induction d as [| [k' v'] d IH]; simpl; [discriminate |].
  destruct (String.eqb_spec k k') as [-> | Hne].
  - intros [= ->]. now left.
  - intros H. right. now apply IH.
Qed.

Lemma is_space_upper_char (c : ascii) :
  Str.is_space (Str.upper_char c) = Str.is_space c /\
  (Str.is_space c = true -> Str.upper_char c = c).
Proof.
  unfold Str.upper_char, Str.is_lower, Str.is_space, Str.code.
  destruct c as [[] [] [] [] [] [] [] []]; vm_compute; split; congruence.
Qed.

Lemma lstrip_upper (s : string) :
  Str.lstrip (Str.upper s) = Str.upper (Str.lstrip s).
Proof.
  induction s as [| c r IH]; [reflexivity |].
  unfold Str.upper in *. simpl.
  destruct (is_space_upper_char c) as [-> _].
  destruct (Str.is_space c); [exact IH | reflexivity].
Qed.

Lemma rstrip_upper (s : string) :
  Str.rstrip (Str.upper s) = Str.upper (Str.rstrip s).
Proof.
  induction s as [| c r IH]; [reflexivity |].
  unfold Str.upper in *. simpl. rewrite IH.
  destruct (Str.rstrip r) as [| d r']; simpl; [| reflexivity].
  destruct (is_space_upper_char c) as [-> _].
  destruct (Str.is_space c); reflexivity.
Qed.

Lemma strip_upper (s : string) :
  Str.strip (Str.upper s) = Str.upper (Str.strip s).
Proof.
  unfold Str.strip. now rewrite lstrip_upper, rstrip_upper.
Qed.

(** ** C1: the state machine *)

Lemma hierarchy_rank (s : string) :
  Dict.get_default s 0 CollectionsIdempotency.STATUS_HIERARCHY = Spec.rank s.
Proof.
  unfold Dict.get_default, Spec.rank, CollectionsIdempotency.STATUS_HIERARCHY.
  simpl.
  repeat (match goal with
          | |- context [String.eqb s ?k] => destruct (String.eqb s k)
          end; try reflexivity).
Qed.

Lemma terminal_mem (s : string) :
  Str.mem s CollectionsIdempotency.TERMINAL_STATUSES = true <-> Spec.terminal s.
Proof.
  rewrite str_mem_In. unfold Spec.terminal. simpl. intuition congruence.
Qed.

Lemma should_update_iff (current proposed : string) (allow_override : bool) :
  CollectionsIdempotency.should_update current proposed allow_override = true
  <-> (current = proposed \/ allow_override = true
       \/ (~ Spec.terminal current /\ Spec.rank current <= Spec.rank proposed)).
Proof.
  unfold CollectionsIdempotency.should_update.
  rewrite !hierarchy_rank.
  destruct (String.eqb_spec current proposed) as [Heq | Hne]; [tauto |].
  destruct allow_override; [tauto |].
  destruct (Str.mem current CollectionsIdempotency.TERMINAL_STATUSES) eqn:Hterm.
  - apply terminal_mem in Hterm. split; [discriminate |].
    intros [H | [H | [H _]]]; [contradiction | discriminate | contradiction].
  - assert (Hnt : ~ Spec.terminal current).
    { intros H. apply terminal_mem in H. congruence. }
    destruct (Nat.ltb_spec (Spec.rank proposed) (Spec.rank current)).
    + split; [discriminate |].
      intros [H' | [H' | [_ H']]]; [contradiction | discriminate | lia].
    + split; [| reflexivity]. intros _. right. right. split; [assumption | lia].
Qed.

(** C1.  [IdempotentCollectionUpdate.should_update] answers true exactly when
    the two statuses are equal, or the override is set, or the current status
    is not terminal and the proposed rank is at least the current rank; the
    class of [webhooks/idempotency.py] is the same function as the one of
    [collections/idempotency.py]; and the three examples of the spec
    evaluate as it says.  The function is total: it returns a boolean on all
    strings. *)
Theorem should_update_spec :
  (forall current proposed allow_override,
      CollectionsIdempotency.should_update current proposed allow_override = true
      <-> (current = proposed \/ allow_override = true
           \/ (~ Spec.terminal current
               /\ Spec.rank current <= Spec.rank proposed)))
  /\ (forall current proposed allow_override,
         WebhooksIdempotency.should_update current proposed allow_override
         = CollectionsIdempotency.should_update current proposed allow_override)
  /\ CollectionsIdempotency.should_update "SUCCESS" "PENDING" false = false
  /\ CollectionsIdempotency.should_update "SUCCESS" "SUCCESS" false = true
  /\ CollectionsIdempotency.should_update "INITIATED" "FAILED" false = true.
Proof.
  split; [exact should_update_iff |].
  split; [reflexivity |].
  repeat split; reflexivity.
Qed.

(** ** C5: the status normalizer *)

Section NormalizerFacts.

Import Normalization.

Lemma normalize_not_a_string (settings : Settings) (v : PyVal) :
  Py.is_str v = false -> normalize_provider_status settings v = Ret ("PENDING", false).
Proof.
  intros H. unfold normalize_provider_status. rewrite H.
  now rewrite orb_true_r.
Qed.

Lemma normalize_empty (settings : Settings) :
  normalize_provider_status settings (PStr "") = Ret ("PENDING", false).
Proof. reflexivity. Qed.

(** On a non-empty string the function is the table lookup on the
    upper-cased, trimmed text. *)
Lemma normalize_string (settings : Settings) (s : string) :
  s <> "" ->
  normalize_provider_status settings (PStr s)
  = match Dict.lookup (Str.strip (Str.upper s)) (_get_status_map settings) with
    | Some r => Ret r
    | None => Ret ("PENDING", false)
    end.
Proof.
  intros Hs. destruct s as [| c r]; [congruence |].
  unfold normalize_provider_status, Dict.mem, Dict.getitem.
  cbn [Py.truthy Py.is_str Str.is_empty negb orb].
  destruct (Dict.lookup _ _); reflexivity.
Qed.

Lemma normalize_returns (settings : Settings) (v : PyVal) :
  exists s b,
    normalize_provider_status settings v = Ret (s, b)
    /\ (s = "PENDING" /\ b = false
        \/ exists k, In (k, (s, b)) (_get_status_map settings)).
Proof.
  destruct (Py.is_str v) eqn:Hstr.
  - destruct v; try discriminate.
    destruct (string_dec s "") as [-> | Hne].
    + exists "PENDING", false. split; [reflexivity | now left].
    + rewrite (normalize_string settings s Hne).
      destruct (Dict.lookup _ _) as [[st b] |] eqn:Hl.
      * exists st, b. split; [reflexivity |]. right.
        eexists. eapply dict_lookup_In. exact Hl.
      * exists "PENDING", false. split; [reflexivity | now left].
  - exists "PENDING", false. split; [| now left].
    now apply normalize_not_a_string.
Qed.

Lemma default_map_well_formed : Spec.well_formed DEFAULT_STATUS_MAP.
Proof.
  intros k s b Hin. unfold DEFAULT_STATUS_MAP in Hin. simpl in Hin.
  unfold Spec.internal_statuses, STATUS_SUCCESS, STATUS_FAILED, STATUS_PENDING in *.
  repeat (destruct Hin as [Hin | Hin];
          [injection Hin as _ <- _; simpl; tauto |]).
  contradiction.
Qed.

Lemma normalize_closed (settings : Settings) (v : PyVal) :
  Spec.well_formed (_get_status_map settings) ->
  exists s b,
    normalize_provider_status settings v = Ret (s, b)
    /\ In s Spec.internal_statuses.
Proof.
  intros Hwf. destruct (normalize_returns settings v) as (s & b & Heq & H).
  exists s, b. split; [assumption |].
  destruct H as [[-> _] | [k Hin]].
  - simpl. tauto.
  - eapply Hwf. exact Hin.
Qed.

Lemma normalize_term (s term : string) (r : string * bool) :
  Dict.lookup term DEFAULT_STATUS_MAP = Some r ->
  Str.strip (Str.upper s) = term ->
  normalize_provider_status None (PStr s) = Ret r.
Proof.
  intros Hl Hkey.
  destruct (string_dec s "") as [-> | Hne].
  - cbn in Hkey. subst term. discriminate Hl.
  - rewrite (normalize_string None s Hne). cbn [_get_status_map].
    now rewrite Hkey, Hl.
Qed.

Lemma normalize_family (terms : list string) (r : string * bool) :
  forallb (fun t => match Dict.lookup t DEFAULT_STATUS_MAP with
                    | Some (st, b) => String.eqb st (fst r) && Bool.eqb b (snd r)
                    | None => false
                    end) terms = true ->
  forall s, In (Str.strip (Str.upper s)) terms ->
            normalize_provider_status None (PStr s) = Ret r.
Proof.
  intros Hall s Hin. rewrite forallb_forall in Hall.
  specialize (Hall _ Hin).
  destruct (Dict.lookup _ DEFAULT_STATUS_MAP) as [[st b] |] eqn:Hl;
    [| discriminate].
  apply andb_true_iff in Hall as [H1 H2].
  apply String.eqb_eq in H1. apply Bool.eqb_prop in H2.
  destruct r as [rs rb]. simpl in H1, H2. subst.
  eapply normalize_term; [exact Hl | reflexivity].
Qed.

End NormalizerFacts.

(** C5.  [normalize_provider_status] returns on every input and never raises,
    whatever table the settings give; with the default table, and with any
    configured table whose values lie in the enum, the status it returns is
    SUCCESS, FAILED or PENDING.  [None], a non-string, the empty string, a
    white-space-only string (default table) and a string whose key is not in
    the table give [(PENDING, False)].  Under the default table the lookup is
    on the upper-cased, trimmed text, so the success family gives
    [(SUCCESS, False)], the failure family [(FAILED, False)] and the OTP
    family [(PENDING, True)] in any case and with surrounding blanks; the
    three examples of the spec evaluate as it says. *)
Theorem normalize_provider_status_total :
  (forall settings v, returns (Normalization.normalize_provider_status settings v))
  /\ (forall settings v,
         Spec.well_formed (Normalization._get_status_map settings) ->
         exists s b,
           Normalization.normalize_provider_status settings v = Ret (s, b)
           /\ In s Spec.internal_statuses)
  /\ (forall v, exists s b,
         Normalization.normalize_provider_status None v = Ret (s, b)
         /\ In s Spec.internal_statuses)
  /\ (forall settings v,
         Py.is_str v = false \/ v = PStr "" ->
         Normalization.normalize_provider_status settings v
         = Ret ("PENDING", false))
  /\ (forall s,
         Str.strip s = "" ->
         Normalization.normalize_provider_status None (PStr s)
         = Ret ("PENDING", false))
  /\ (forall settings s,
         Dict.lookup (Str.strip (Str.upper s))
                     (Normalization._get_status_map settings) = None ->
         Normalization.normalize_provider_status settings (PStr s)
         = Ret ("PENDING", false))
  /\ (forall s,
         In (Str.strip (Str.upper s)) Spec.success_terms ->
         Normalization.normalize_provider_status None (PStr s)
         = Ret ("SUCCESS", false))
  /\ (forall s,
         In (Str.strip (Str.upper s)) Spec.failure_terms ->
         Normalization.normalize_provider_status None (PStr s)
         = Ret ("FAILED", false))
  /\ (forall s,
         In (Str.strip (Str.upper s)) Spec.otp_terms ->
         Normalization.normalize_provider_status None (PStr s)
         = Ret ("PENDING", true))
  /\ Normalization.normalize_provider_status None (PStr "WaitingForOTP")
     = Ret ("PENDING", true)
  /\ Normalization.normalize_provider_status None (PStr "DECLINED")
     = Ret ("FAILED", false)
  /\ Normalization.normalize_provider_status None PNone = Ret ("PENDING", false).
Proof.
  split.
  { intros settings v.
    destruct (normalize_returns settings v) as (s & b & H & _).
    now exists (s, b). }
  split; [exact normalize_closed |].
  split.
  { intros v. apply normalize_closed. exact default_map_well_formed. }
  split.
  { intros settings v [H | ->];
      [now apply normalize_not_a_string | apply normalize_empty]. }
  split.
  { intros s Hs.
    destruct (string_dec s "") as [-> | Hne]; [reflexivity |].
    rewrite (normalize_string None s Hne), strip_upper, Hs. reflexivity. }
  split.
  { intros settings s Hl.
    destruct (string_dec s "") as [-> | Hne]; [reflexivity |].
    now rewrite (normalize_string settings s Hne), Hl. }
  split; [apply (normalize_family Spec.success_terms ("SUCCESS", false)); reflexivity |].
  split; [apply (normalize_family Spec.failure_terms ("FAILED", false)); reflexivity |].
  split; [apply (normalize_family Spec.otp_terms ("PENDING", true)); reflexivity |].
  repeat split; reflexivity.
Qed.

(** The hypotheses of C5 at the default table and at concrete texts. *)
Lemma normalize_provider_status_total_witness :
  (exists s b,
      Normalization.normalize_provider_status None (PInt 7) = Ret (s, b)
      /\ In s Spec.internal_statuses)
  /\ Normalization.normalize_provider_status None (PList []) = Ret ("PENDING", false)
  /\ Normalization.normalize_provider_status None (PStr "   ") = Ret ("PENDING", false)
  /\ Normalization.normalize_provider_status None (PStr "refunded")
     = Ret ("PENDING", false)
  /\ Normalization.normalize_provider_status None (PStr " Paid ")
     = Ret ("SUCCESS", false)
  /\ Normalization.normalize_provider_status None (PStr "timeout")
     = Ret ("FAILED", false)
  /\ Normalization.normalize_provider_status None (PStr "otp_required")
     = Ret ("PENDING", true).
Proof.
  pose proof normalize_provider_status_total
    as (_ & Hwf & _ & Hnon & Hblank & Hmiss & Hok & Hfail & Hotp & _).
  split; [apply (Hwf None (PInt 7)); exact default_map_well_formed |].
  split; [apply (Hnon None (PList [])); left; reflexivity |].
  split; [apply (Hblank "   "); reflexivity |].
  split; [apply (Hmiss None "refunded"); reflexivity |].
  split; [apply (Hok " Paid "); vm_compute; tauto |].
  split; [apply (Hfail "timeout"); vm_compute; tauto |].
  apply (Hotp "otp_required"); vm_compute; tauto.
Defined.

(** ** C6, C7: the field extractors *)

Lemma get_by_path_loop_returns (path : list string) :
  forall node, returns (Utils.get_by_path_loop node path).
Proof.
  induction path as [| key rest IH]; intros node; simpl.
  - now exists node.
  - destruct node; simpl; try (now exists PNone).
    destruct (Py.is_none _); [now exists PNone | apply IH].
Qed.

Lemma get_by_path_returns (payload : PyVal) (path : list string) :
  returns (Utils._get_by_path payload path).
Proof.
  unfold Utils._get_by_path.
  destruct (negb (Py.is_dict payload)); [now exists PNone |].
  apply get_by_path_loop_returns.
Qed.

Lemma get_by_path_non_dict (payload : PyVal) (path : list string) :
  Py.is_dict payload = false -> Utils._get_by_path payload path = Ret PNone.
Proof.
  intros H. unfold Utils._get_by_path. now rewrite H.
Qed.

(** The helpers of [webhooks/utils.py] return on every payload. *)
Lemma first_non_empty_returns (payload : PyVal) (paths : list (list string)) :
  returns (Utils._first_non_empty payload paths).
Proof.
  induction paths as [| path rest IH]; simpl.
  - now exists None.
  - destruct (get_by_path_returns payload path) as [val ->]. simpl.
    destruct (Py.is_none val); [exact IH |].
    destruct (String.eqb _ ""); [exact IH | eexists; reflexivity].
Qed.

(** On an input that is not a dict they find nothing. *)
Lemma first_non_empty_non_dict (payload : PyVal) (paths : list (list string)) :
  Py.is_dict payload = false -> Utils._first_non_empty payload paths = Ret None.
Proof.
  intros H. induction paths as [| path rest IH]; simpl; [reflexivity |].
  rewrite (get_by_path_non_dict payload path H). simpl. exact IH.
Qed.

Lemma first_numeric_returns (float_of_str : string -> Exc PyVal)
    (payload : PyVal) (paths : list (list string)) :
  (forall s e, float_of_str s = Raise e -> exists m, e = ValueError m) ->
  returns (Utils._first_numeric float_of_str payload paths).
Proof.
  intros Hfloat. induction paths as [| path rest IH]; simpl.
  - now exists PNone.
  - destruct (get_by_path_returns payload path) as [val ->]. simpl.
    destruct (Py.is_none val); [exact IH |].
    destruct val; try exact IH; try (eexists; reflexivity).
    destruct (float_of_str s) as [f | e] eqn:Hf; [eexists; reflexivity |].
    destruct (Hfloat _ _ Hf) as [m ->]. exact IH.
Qed.

Lemma first_numeric_non_dict (float_of_str : string -> Exc PyVal)
    (payload : PyVal) (paths : list (list string)) :
  Py.is_dict payload = false ->
  Utils._first_numeric float_of_str payload paths = Ret PNone.
Proof.
  intros H. induction paths as [| path rest IH]; simpl; [reflexivity |].
  rewrite (get_by_path_non_dict payload path H). simpl. exact IH.
Qed.

(** C6.  The parser of webhook processing raises on a payload whose [meta]
    is JSON null: every key before it is absent, so the chain reaches
    [payload.get("meta", {}).get("request_ref")], where [.get] is called on
    [None].  The helper of [webhooks/utils.py] returns [None] on the same
    payload.  A payload that is a JSON array raises at the first [.get]. *)
Theorem payload_parser_raises_on_null_meta :
  PayloadParser._extract_paywithaccount (PDict [("meta", PNone)])
  = Raise (AttributeError "NoneType" "get")
  /\ PayloadParser.extract_from_payload (PDict [("meta", PNone)]) "paywithaccount"
     = Raise (AttributeError "NoneType" "get")
  /\ PayloadParser.extract_from_payload (PList []) "other"
     = Raise (AttributeError "list" "get")
  /\ Utils.extract_request_ref (PDict [("meta", PNone)]) = Ret None.
Proof.
  repeat split; reflexivity.
Qed.

(** C7.  On [{"event": {"id": "fw_evt_999"}}] the candidate path [["event"]]
    comes before [["event", "id"]] and finds the inner dict, which is not
    [None]; [_first_non_empty] takes [str()] of it, so the event id is the
    printed dict and not ["fw_evt_999"].  On [{"some_other_field": "value"}]
    no path finds anything and the result is [None]. *)
Theorem extract_event_id_nested_event :
  Utils.extract_event_id (PDict [("event", PDict [("id", PStr "fw_evt_999")])])
  = Ret (Some "{'id': 'fw_evt_999'}")
  /\ Utils.extract_event_id (PDict [("some_other_field", PStr "value")])
     = Ret None.
Proof.
  split; reflexivity.
Qed.

(** ** The store *)

(** A row found by [p] and rewritten in place by a row that [p] also finds is
    what [p] finds afterwards. *)
Lemma find_replace {A : Type} (p same : A -> bool) (l : list A) (x y : A) :
  find p l = Some x -> same x = true -> p y = true ->
  find p (map (fun z => if same z then y else z) l) = Some y.
Proof.
  intros Hfind Hsame Hp. induction l as [| z l IH]; simpl in *; [discriminate |].
  destruct (same z) eqn:Hz.
  - now rewrite Hp.
  - destruct (p z) eqn:Hpz.
    + injection Hfind as ->. congruence.
    + now apply IH.
Qed.

Lemma cascade_agrees (n : string) :
  CollectionsService.transaction_status_of n = Spec.cascade n.
Proof.
  unfold CollectionsService.transaction_status_of, Spec.cascade, Dict.get_default.
  simpl.
  repeat (match goal with
          | |- context [String.eqb n ?k] => destruct (String.eqb n k)
          end; try reflexivity).
Qed.

(** ** The field the model class does not declare *)

(** [update_collection_from_webhook] never returns, and the exception it
    raises depends on the status being a string and on the collection being
    there, not on the case mapping, the status word or the override. *)
Lemma update_collection_from_webhook_raises
    (lower upper : string -> string) (db : DB)
    (request_ref provider_ref new_status payload response_body : PyVal)
    (allow_override : bool) :
  CollectionsService.update_collection_from_webhook lower upper db request_ref
    provider_ref new_status payload response_body allow_override
  = Raise (if Py.is_str new_status then
             match Store.get_collection db request_ref with
             | Some _ => AttributeError "Collection" "metadata"
             | None =>
                 CollectionError
                   ("Collection not found for request_ref="
                    ++ Py.str request_ref)
             end
           else AttributeError (Py.type_name new_status) "lower").
Proof.
  unfold CollectionsService.update_collection_from_webhook.
  destruct new_status; cbn [bind Py.is_str]; try reflexivity.
  destruct (Store.get_collection db request_ref); reflexivity.
Qed.

(** [validate_collection] never returns either: its guard on
    [collection.metadata] stands before the [try]. *)
Lemma validate_collection_raises
    (settings : Normalization.Settings) (now_iso : string) (db : DB)
    (c : Collection) (reply : Exc PyVal) :
  CollectionsService.validate_collection settings now_iso db c reply
  = Raise (if String.eqb (c_status c) "PENDING"
           then AttributeError "Collection" "metadata"
           else CollectionError
                  ("Collection status is " ++ c_status c
                   ++ ", must be PENDING to validate")).
Proof.
  unfold CollectionsService.validate_collection.
  destruct (String.eqb (c_status c) "PENDING"); reflexivity.
Qed.

Lemma wrap_errors_raises (provider_msg unexpected_msg : string) {A : Type}
    (m : Exc A) (e : PyExc) :
  CollectionsService.wrap_errors provider_msg unexpected_msg m = Raise e ->
  exists msg, e = CollectionError msg.
Proof.
  unfold CollectionsService.wrap_errors.
  destruct m as [a | err]; [discriminate |].
  destruct err; intros [= <-]; eexists; reflexivity.
Qed.

Lemma wrap_errors_returns (provider_msg unexpected_msg : string) {A : Type}
    (m : Exc A) (a : A) :
  CollectionsService.wrap_errors provider_msg unexpected_msg m = Ret a ->
  m = Ret a.
Proof.
  unfold CollectionsService.wrap_errors.
  destruct m as [x | err]; [trivial | destruct err; discriminate].
Qed.

(** A poll that returns found the stored status confirmed by the provider
    and wrote nothing. *)
Lemma query_collection_status_inv
    (settings : Normalization.Settings) (now_iso : string) (db : DB)
    (c : Collection) (reply : Exc PyVal) (c' : Collection) (db' : DB) :
  CollectionsService.query_collection_status settings now_iso db c reply
  = Ret (c', db') ->
  c' = c /\ db' = db
  /\ exists response_json provider_status norm,
       reply = Ret response_json
       /\ CollectionsService.response_status response_json = Ret provider_status
       /\ Normalization.normalize_provider_status settings provider_status
          = Ret norm
       /\ CollectionsService.new_status_of (fst norm) (snd norm) = c_status c.
Proof.
  unfold CollectionsService.query_collection_status.
  match goal with |- (if ?b then _ else _) = _ -> _ => destruct b end;
    [discriminate |].
  intros H. apply wrap_errors_returns in H.
  destruct reply as [response_json | e]; cbn [bind] in H; [| discriminate].
  destruct (CollectionsService.response_status response_json) as [ps | e]
    eqn:Hps; cbn [bind] in H; [| discriminate].
  destruct (Normalization.normalize_provider_status settings ps)
    as [norm | e] eqn:Hn; cbn [bind] in H; [| discriminate].
  destruct (String.eqb_spec (c_status c)
              (CollectionsService.new_status_of (fst norm) (snd norm)))
    as [Heq | Hne]; cbn [negb] in H; [| discriminate].
  injection H as <- <-. split; [reflexivity |]. split; [reflexivity |].
  exists response_json, ps, norm. repeat split; try assumption. now symmetry.
Qed.

(** ** C4: the transaction cascade *)

(** C4.  The cascade table of [update_collection_from_webhook] is the mapping
    of the claim, but the cascade is never reached: on every string status
    and every collection that exists, under every case mapping and with or
    without override, the method raises [AttributeError] at
    [collection.metadata], before [save()] and before the cascade.  On a
    collection at INITIATED with two PENDING lines the webhook "success" is
    admitted by the state machine and maps to SUCCESS, yet the call raises
    and both lines are still PENDING. *)
Theorem cascade_never_reached :
  (forall n, CollectionsService.transaction_status_of n = Spec.cascade n)
  /\ (forall lower upper db request_ref provider_ref s payload response_body
             allow_override c,
         Store.get_collection db request_ref = Some c ->
         CollectionsService.update_collection_from_webhook lower upper db
           request_ref provider_ref (PStr s) payload response_body
           allow_override
         = Raise (AttributeError "Collection" "metadata"))
  /\ CollectionsIdempotency.should_update "INITIATED"
       (CollectionsService.normalize_webhook_status Str.lower Str.upper
          "success") false = true
  /\ Spec.cascade
       (CollectionsService.normalize_webhook_status Str.lower Str.upper
          "success") = "SUCCESS"
  /\ CollectionsService.update_collection_from_webhook Str.lower Str.upper
       (Example.db_r1 "INITIATED" "PENDING") (PStr "r1") (PStr "pwa-9")
       (PStr "success") Example.delivery PNone false
     = Raise (AttributeError "Collection" "metadata")
  /\ map t_status
       (transactions
          (Runs.db_after (Example.db_r1 "INITIATED" "PENDING")
             (CollectionsService.update_collection_from_webhook
                Str.lower Str.upper (Example.db_r1 "INITIATED" "PENDING")
                (PStr "r1") (PStr "pwa-9") (PStr "success") Example.delivery
                PNone false)))
     = ["PENDING"; "PENDING"].
Proof.
  split; [exact cascade_agrees |].
  split.
  { intros lower upper db rr pr s payload rb ov c Hget.
    rewrite update_collection_from_webhook_raises, Hget. reflexivity. }
  repeat split; reflexivity.
Qed.

(** C4 at a collection at PENDING hearing "failed" with the override set. *)
Lemma cascade_never_reached_witness :
  CollectionsService.update_collection_from_webhook Str.lower Str.upper
    (Example.db_r1 "PENDING" "PENDING") (PStr "r1") PNone (PStr "failed")
    Example.delivery PNone true
  = Raise (AttributeError "Collection" "metadata").
Proof.
  apply (proj1 (proj2 cascade_never_reached) Str.lower Str.upper
           (Example.db_r1 "PENDING" "PENDING") (PStr "r1") PNone "failed"
           Example.delivery PNone true (Example.collection_r1 "PENDING")).
  reflexivity.
Defined.

(** ** Webhook processing *)

(** Whatever the backend does, the update inside or after the lock block is
    the one update. *)
Lemma processing_lock_transparent {A : Type} (backend : Locking.Backend)
    (k : string) (t w : nat) (r : Exc A) :
  match Locking.processing_lock backend k t w (fun _ => r) with
  | Ret x => Ret x
  | Raise _ => r
  end = r.
Proof.
  unfold Locking.processing_lock, Locking.init.
  destruct backend; cbn [bind]; destruct r; reflexivity.
Qed.

Lemma process_event_try_eq (backend : Locking.Backend) (db : DB)
    (ev : WebhookEvent) :
  WebhookService.process_event_try backend db ev
  = (args <- WebhookService.parse_event ev ;;
     let '(request_ref, provider_ref, status) := args in
     CollectionsService.update_collection_from_webhook Str.lower Str.upper db
       request_ref provider_ref status (we_payload ev) PNone false).
Proof.
  unfold WebhookService.process_event_try.
  destruct (WebhookService.parse_event ev) as [[[rr pr] st] | e]; cbn [bind];
    [apply processing_lock_transparent | reflexivity].
Qed.

Lemma process_event_backend (backend backend' : Locking.Backend) (now : nat)
    (db : DB) (id : nat) :
  WebhookService.process_event backend now db id
  = WebhookService.process_event backend' now db id.
Proof.
  unfold WebhookService.process_event.
  destruct (Store.get_event db id); [| reflexivity].
  now rewrite !process_event_try_eq.
Qed.

Lemma get_event_id (db : DB) (id : nat) (ev : WebhookEvent) :
  Store.get_event db id = Some ev -> we_id ev = id.
Proof.
  intros H. apply find_some in H. destruct H as [_ H].
  now apply Nat.eqb_eq in H.
Qed.

Lemma get_event_saved (db db1 : DB) (id : nat) (ev e : WebhookEvent) :
  Store.get_event db id = Some ev -> events db1 = events db ->
  we_id e = we_id ev ->
  Store.get_event (Store.save_event db1 e) id = Some e.
Proof.
  intros Hget Hev Hid. unfold Store.get_event, Store.save_event. cbn.
  rewrite Hev.
  apply (find_replace _ (fun x => Nat.eqb (we_id x) (we_id e)) _ ev).
  - exact Hget.
  - rewrite Hid. apply Nat.eqb_refl.
  - rewrite Hid, (get_event_id db id ev Hget). apply Nat.eqb_refl.
Qed.

(** [process_event] on a stored event, by the outcome of its [try] block. *)
Lemma process_event_eq (backend : Locking.Backend) (now : nat) (db : DB)
    (id : nat) (ev : WebhookEvent) :
  Store.get_event db id = Some ev ->
  WebhookService.process_event backend now db id
  = match WebhookService.process_event_try backend db ev with
    | Ret (_, db') =>
        Ret (WebhookService.finished ev "PROCESSED" (we_error ev) now,
             Store.save_event db'
               (WebhookService.finished ev "PROCESSED" (we_error ev) now))
    | Raise err =>
        Ret (WebhookService.finished ev "FAILED"
               (WebhookService.error_text err) now,
             Store.save_event db
               (WebhookService.finished ev "FAILED"
                  (WebhookService.error_text err) now))
    end.
Proof.
  intros Hget. unfold WebhookService.process_event. rewrite Hget.
  destruct (WebhookService.process_event_try backend db ev) as [[c d] | err];
    [reflexivity | destruct err; reflexivity].
Qed.

(** The [try] block always raises: parsing fails, or the update does. *)
Lemma process_event_try_raises (backend : Locking.Backend) (db : DB)
    (ev : WebhookEvent) :
  exists err, WebhookService.process_event_try backend db ev = Raise err.
Proof.
  rewrite process_event_try_eq.
  destruct (WebhookService.parse_event ev) as [[[rr pr] st] | e]; cbn [bind].
  - rewrite update_collection_from_webhook_raises. eexists. reflexivity.
  - eexists. reflexivity.
Qed.

(** The [try] block reads the payload and the provider of the event and the
    collections of the database, nothing else. *)
Lemma process_event_try_stable (backend backend' : Locking.Backend)
    (db db' : DB) (ev ev' : WebhookEvent) :
  collections db' = collections db ->
  we_payload ev' = we_payload ev -> we_provider ev' = we_provider ev ->
  exists err,
    WebhookService.process_event_try backend db ev = Raise err
    /\ WebhookService.process_event_try backend' db' ev' = Raise err.
Proof.
  intros Hc Hpay Hprov. rewrite !process_event_try_eq.
  assert (Hp : WebhookService.parse_event ev' = WebhookService.parse_event ev).
  { unfold WebhookService.parse_event. now rewrite Hprov, Hpay. }
  rewrite Hp, Hpay.
  destruct (WebhookService.parse_event ev) as [[[rr pr] st] | e]; cbn [bind].
  - rewrite !update_collection_from_webhook_raises.
    unfold Store.get_collection. rewrite Hc. eexists. split; reflexivity.
  - eexists. split; reflexivity.
Qed.

Lemma error_text_not_empty (err : PyExc) : WebhookService.error_text err <> "".
Proof. destruct err; discriminate. Qed.

(** Every stored event ends FAILED, with an error text, and only its own row
    is written. *)
Lemma process_event_failed (backend : Locking.Backend) (now : nat) (db : DB)
    (id : nat) (ev : WebhookEvent) :
  Store.get_event db id = Some ev ->
  exists err,
    WebhookService.process_event_try backend db ev = Raise err
    /\ WebhookService.process_event backend now db id
       = Ret (WebhookService.finished ev "FAILED"
                (WebhookService.error_text err) now,
              Store.save_event db
                (WebhookService.finished ev "FAILED"
                   (WebhookService.error_text err) now)).
Proof.
  intros Hget. destruct (process_event_try_raises backend db ev) as [err Herr].
  exists err. split; [exact Herr |].
  now rewrite (process_event_eq backend now db id ev Hget), Herr.
Qed.

(** When every poll of the wait window finds the key taken, the lock is
    not acquired. *)
Lemma acquire_redis_busy (l : Locking.ProcessingLock) (n : nat) :
  fst (Locking._acquire_redis l (repeat Locking.SetBusy n)) = false.
Proof.
  induction n as [| n IH]; [reflexivity | exact IH].
Qed.

(** ** C8: the lock never decides the outcome *)

(** C8.  The outcome of [process_event] does not depend on the lock backend:
    with no Redis, with a client that cannot be built, with a lock that is
    taken at once, that times out or whose backend raises, the result is the
    same event and the same database.  For every backend, once parsing has
    produced the arguments, [process_event] ends as the call of
    [update_collection_from_webhook] on those arguments ends: PROCESSED on
    the database the update left when it returns, FAILED with the text of
    its exception on the database as it was when it raises.  The event ends
    PROCESSED or FAILED.  With no lock backend [acquire] answers true; a lock
    whose polls all find it busy answers false. *)
Theorem lock_failure_never_aborts :
  (forall backend backend' now db id,
      WebhookService.process_event backend now db id
      = WebhookService.process_event backend' now db id)
  /\ (forall backend now db id ev request_ref provider_ref status,
         Store.get_event db id = Some ev ->
         WebhookService.parse_event ev = Ret (request_ref, provider_ref, status) ->
         WebhookService.process_event backend now db id
         = match CollectionsService.update_collection_from_webhook
                   Str.lower Str.upper db request_ref provider_ref status
                   (we_payload ev) PNone false with
           | Ret (_, db') =>
               Ret (WebhookService.finished ev "PROCESSED" (we_error ev) now,
                    Store.save_event db'
                      (WebhookService.finished ev "PROCESSED" (we_error ev)
                         now))
           | Raise err =>
               Ret (WebhookService.finished ev "FAILED"
                      (WebhookService.error_text err) now,
                    Store.save_event db
                      (WebhookService.finished ev "FAILED"
                         (WebhookService.error_text err) now))
           end)
  /\ (forall backend now db id ev,
         Store.get_event db id = Some ev ->
         exists e db',
           WebhookService.process_event backend now db id = Ret (e, db')
           /\ (we_status e = "PROCESSED" \/ we_status e = "FAILED"))
  /\ (forall k t w,
         exists l, Locking.init Locking.NoRedis k t w = Ret l
                   /\ fst (Locking.acquire l) = true)
  /\ (forall k t w rel n,
         exists l,
           Locking.init (Locking.Redis (repeat Locking.SetBusy n) rel) k t w = Ret l
           /\ fst (Locking.acquire l) = false).
Proof.
  split; [exact process_event_backend |].
  split.
  { intros backend now db id ev rr pr st Hget Hparse.
    rewrite (process_event_eq backend now db id ev Hget).
    now rewrite process_event_try_eq, Hparse. }
  split.
  { intros backend now db id ev Hget.
    destruct (process_event_failed backend now db id ev Hget) as (err & _ & Heq).
    eexists. eexists. split; [exact Heq |]. now right. }
  split.
  { intros k t w. eexists. split; reflexivity. }
  intros k t w rel n. eexists. split; [reflexivity |].
  unfold Locking.acquire. cbn. apply acquire_redis_busy.
Qed.

(** C8 at a stored delivery for an unknown request reference: under a lock
    that times out and under a client that cannot be built, the event ends
    FAILED with the text of the update's [CollectionError]. *)
Lemma lock_failure_never_aborts_witness :
  WebhookService.process_event
    (Locking.Redis [Locking.SetBusy; Locking.SetBusy] (Ret false)) 7
    (Example.with_events (Example.db_r1 "INITIATED" "PENDING")
       [Example.received 0 "paywithaccount"
          (PDict [("request_ref", PStr "r9"); ("status", PStr "success")])]) 0
  = WebhookService.process_event (Locking.Redis [Locking.SetOk] (Ret true)) 7
      (Example.with_events (Example.db_r1 "INITIATED" "PENDING")
         [Example.received 0 "paywithaccount"
            (PDict [("request_ref", PStr "r9"); ("status", PStr "success")])]) 0
  /\ option_map (fun r => (we_status (fst r), we_error (fst r)))
       (match WebhookService.process_event
                (Locking.ClientRaises (BackendError "connection refused")) 7
                (Example.with_events (Example.db_r1 "INITIATED" "PENDING")
                   [Example.received 0 "paywithaccount"
                      (PDict [("request_ref", PStr "r9");
                              ("status", PStr "success")])]) 0 with
        | Ret r => Some r
        | Raise _ => None
        end)
     = Some ("FAILED",
             "CollectionError: Collection not found for request_ref=r9").
Proof.
  pose proof lock_failure_never_aborts as (Hsame & Htie & _).
  split; [apply Hsame |].
  rewrite (Htie (Locking.ClientRaises (BackendError "connection refused")) 7
             (Example.with_events (Example.db_r1 "INITIATED" "PENDING")
                [Example.received 0 "paywithaccount"
                   (PDict [("request_ref", PStr "r9");
                           ("status", PStr "success")])])
             0 (Example.received 0 "paywithaccount"
                    (PDict [("request_ref", PStr "r9");
                            ("status", PStr "success")]))
             (PStr "r9") (PStr "") (PStr "success") eq_refl eq_refl).
  reflexivity.
Defined.

(** ** C9: fields the parser cannot resolve *)

Lemma or_truthy (a b : Exc PyVal) (r : PyVal) :
  (forall r', b = Ret r' -> Py.truthy r' = true) ->
  Py.or_ a b = Ret r -> Py.truthy r = true.
Proof.
  intros Hb. unfold Py.or_, bind. destruct a as [x | e]; [| discriminate].
  destruct (Py.truthy x) eqn:Hx; [| apply Hb].
  intros [= <-]. exact Hx.
Qed.

(** The PayWithAccount parser never returns an empty status: its chain ends
    in the literal ["unknown"]. *)
Lemma paywithaccount_status_truthy (payload : PyVal)
    (x : PayloadParser.Extracted) :
  PayloadParser._extract_paywithaccount payload = Ret x ->
  Py.truthy (PayloadParser.status x) = true.
Proof.
  unfold PayloadParser._extract_paywithaccount.
  match goal with |- bind ?m _ = _ -> _ => destruct m as [rr | e] end;
    [cbn [bind] | discriminate].
  match goal with |- bind ?m _ = _ -> _ => destruct m as [pr | e] end;
    [cbn [bind] | discriminate].
  match goal with |- bind ?m _ = _ -> _ => destruct m as [st | e] eqn:Hst end;
    [cbn [bind] | discriminate].
  intros [= <-]. cbn [PayloadParser.status].
  apply or_truthy in Hst; [exact Hst |].
  intros r1 H1. apply or_truthy in H1; [exact H1 |].
  intros r2 H2. apply or_truthy in H2; [exact H2 |].
  intros r3 [= <-]. reflexivity.
Qed.

Lemma paywithaccount_status_unknown (d : list (string * PyVal))
    (x : PayloadParser.Extracted) :
  Dict.lookup "status" d = None ->
  Dict.lookup "transaction" d = None ->
  Dict.lookup "data" d = None ->
  PayloadParser._extract_paywithaccount (PDict d) = Ret x ->
  PayloadParser.status x = PStr "unknown".
Proof.
  intros H1 H2 H3. unfold PayloadParser._extract_paywithaccount.
  match goal with |- bind ?m _ = _ -> _ => destruct m as [rr | e] end;
    [cbn [bind] | discriminate].
  match goal with |- bind ?m _ = _ -> _ => destruct m as [pr | e] end;
    [cbn [bind] | discriminate].
  unfold Py.or_, PayloadParser.getk, PayloadParser.get_nested, Py.get,
    Dict.get_default.
  rewrite H1, H2, H3. cbn. intros [= <-]. reflexivity.
Qed.

Lemma generic_status_unknown (d : list (string * PyVal))
    (x : PayloadParser.Extracted) :
  Dict.lookup "status" d = None ->
  PayloadParser._extract_generic (PDict d) = Ret x ->
  PayloadParser.status x = PStr "unknown".
Proof.
  intros H1. unfold PayloadParser._extract_generic.
  match goal with |- bind ?m _ = _ -> _ => destruct m as [rr | e] end;
    [cbn [bind] | discriminate].
  match goal with |- bind ?m _ = _ -> _ => destruct m as [pr | e] end;
    [cbn [bind] | discriminate].
  unfold Py.get, Dict.get_default. rewrite H1. cbn. intros [= <-]. reflexivity.
Qed.

Lemma parse_event_resolved (ev : WebhookEvent) (x : PayloadParser.Extracted) :
  PayloadParser.extract_from_payload (we_payload ev) (we_provider ev) = Ret x ->
  Py.truthy (PayloadParser.request_ref x) = true ->
  WebhookService.parse_event ev
  = Ret (PayloadParser.request_ref x,
         (if Py.truthy (PayloadParser.provider_ref x)
          then PayloadParser.provider_ref x else PStr ""),
         (if Py.truthy (PayloadParser.status x)
          then PayloadParser.status x else PStr "pending")).
Proof.
  intros Hx Hrr. unfold WebhookService.parse_event. rewrite Hx. cbn [bind].
  rewrite Hrr. cbn [negb]. destruct (Py.truthy (PayloadParser.status x));
    reflexivity.
Qed.

Lemma parse_event_unresolved (ev : WebhookEvent) (x : PayloadParser.Extracted) :
  PayloadParser.extract_from_payload (we_payload ev) (we_provider ev) = Ret x ->
  Py.truthy (PayloadParser.request_ref x) = false ->
  WebhookService.parse_event ev
  = Raise (WebhookError "Could not extract request_ref from webhook payload").
Proof.
  intros Hx Hrr. unfold WebhookService.parse_event. rewrite Hx. cbn [bind].
  now rewrite Hrr.
Qed.

(** C9.  When the parser returns no request reference, [process_event] marks
    the event FAILED with the error text of the [WebhookError] and changes
    no collection and no transaction.  When it returns one, the status is
    replaced by ["pending"] when it is empty; but the PayWithAccount parser
    never returns an empty status, since its chain ends in the literal
    ["unknown"] (as the generic parser's does when the key is absent).  So a
    PayWithAccount delivery with a request reference and no status goes on
    with ["unknown"], not with ["pending"]; the default is only reached
    through the generic parser, on a status that is present and empty. *)
Theorem unresolved_fields :
  (forall backend now db id ev x,
      Store.get_event db id = Some ev ->
      PayloadParser.extract_from_payload (we_payload ev) (we_provider ev) = Ret x ->
      Py.truthy (PayloadParser.request_ref x) = false ->
      exists e,
        WebhookService.process_event backend now db id
        = Ret (e, Store.save_event db e)
        /\ we_status e = "FAILED"
        /\ we_error e
           = "Unexpected error: Could not extract request_ref from webhook payload"
        /\ Store.get_event (Store.save_event db e) id = Some e
        /\ collections (Store.save_event db e) = collections db
        /\ transactions (Store.save_event db e) = transactions db)
  /\ (forall ev x,
         PayloadParser.extract_from_payload (we_payload ev) (we_provider ev)
         = Ret x ->
         Py.truthy (PayloadParser.request_ref x) = true ->
         WebhookService.parse_event ev
         = Ret (PayloadParser.request_ref x,
                (if Py.truthy (PayloadParser.provider_ref x)
                 then PayloadParser.provider_ref x else PStr ""),
                (if Py.truthy (PayloadParser.status x)
                 then PayloadParser.status x else PStr "pending")))
  /\ (forall payload x,
         PayloadParser._extract_paywithaccount payload = Ret x ->
         Py.truthy (PayloadParser.status x) = true)
  /\ (forall d x,
         Dict.lookup "status" d = None ->
         Dict.lookup "transaction" d = None ->
         Dict.lookup "data" d = None ->
         PayloadParser._extract_paywithaccount (PDict d) = Ret x ->
         PayloadParser.status x = PStr "unknown")
  /\ (forall d x,
         Dict.lookup "status" d = None ->
         PayloadParser._extract_generic (PDict d) = Ret x ->
         PayloadParser.status x = PStr "unknown")
  /\ WebhookService.parse_event
       (Example.received 0 "paywithaccount" (PDict [("request_ref", PStr "r1")]))
     = Ret (PStr "r1", PStr "", PStr "unknown")
  /\ WebhookService.parse_event
       (Example.received 0 "flutterwave"
          (PDict [("request_ref", PStr "r1"); ("status", PStr "")]))
     = Ret (PStr "r1", PStr "", PStr "pending").
Proof.
  split.
  { intros backend now db id ev x Hget Hx Hrr.
    pose proof (parse_event_unresolved ev x Hx Hrr) as Hparse.
    rewrite (process_event_eq backend now db id ev Hget).
    rewrite process_event_try_eq, Hparse. cbn [bind].
    eexists. split; [reflexivity |]. split; [reflexivity |].
    split; [reflexivity |].
    split; [| split; reflexivity].
    apply (get_event_saved db db id ev); [exact Hget | reflexivity | reflexivity]. }
  split; [exact parse_event_resolved |].
  split; [exact paywithaccount_status_truthy |].
  split; [exact paywithaccount_status_unknown |].
  split; [exact generic_status_unknown |].
  split; reflexivity.
Qed.

(** C9 at a delivery without request reference, and at a PayWithAccount
    delivery whose status sits nowhere. *)
Lemma unresolved_fields_witness :
  (exists e,
      WebhookService.process_event Locking.NoRedis 3
        (Example.with_events (Example.db_r1 "INITIATED" "PENDING")
           [Example.received 0 "paywithaccount"
              (PDict [("status", PStr "success")])]) 0
      = Ret (e, Store.save_event
                  (Example.with_events (Example.db_r1 "INITIATED" "PENDING")
                     [Example.received 0 "paywithaccount"
                        (PDict [("status", PStr "success")])]) e)
      /\ we_status e = "FAILED")
  /\ PayloadParser.status
       (PayloadParser.mkExtracted (PStr "r1") PNone (PStr "unknown"))
     = PStr "unknown".
Proof.
  pose proof unresolved_fields as (Hfail & _ & _ & Hunknown & _).
  split.
  { destruct (Hfail Locking.NoRedis 3
                (Example.with_events (Example.db_r1 "INITIATED" "PENDING")
                   [Example.received 0 "paywithaccount"
                      (PDict [("status", PStr "success")])]) 0
                (Example.received 0 "paywithaccount"
                   (PDict [("status", PStr "success")]))
                (PayloadParser.mkExtracted PNone PNone (PStr "success"))
                eq_refl eq_refl eq_refl) as (e & Heq & Hst & _).
    exists e. split; assumption. }
  exact (Hunknown [("request_ref", PStr "r1")]
           (PayloadParser.mkExtracted (PStr "r1") PNone (PStr "unknown"))
           eq_refl eq_refl eq_refl eq_refl).
Defined.

(** ** C10: a rejected transition *)

Lemma dict_lookup_set {V : Type} (k : string) (v : V) (d : list (string * V)) :
  Dict.lookup k (Dict.set k v d) = Some v.
Proof.
  induction d as [| [k' v'] d IH]; simpl.
  - now rewrite String.eqb_refl.
  - destruct (String.eqb k k') eqn:Hk; simpl; rewrite Hk; [reflexivity | exact IH].
Qed.

(** A delivery whose collection exists ends FAILED on the missing field, and
    the row of the collection is the one that was there. *)
Lemma process_event_found (backend : Locking.Backend) (now : nat) (db : DB)
    (id : nat) (ev : WebhookEvent) (request_ref provider_ref : PyVal)
    (s : string) (c : Collection) :
  Store.get_event db id = Some ev ->
  WebhookService.parse_event ev = Ret (request_ref, provider_ref, PStr s) ->
  Store.get_collection db request_ref = Some c ->
  exists e,
    WebhookService.process_event backend now db id
    = Ret (e, Store.save_event db e)
    /\ we_status e = "FAILED"
    /\ we_error e
       = "Unexpected error: 'Collection' object has no attribute 'metadata'"
    /\ Store.get_event (Store.save_event db e) id = Some e
    /\ Store.get_collection (Store.save_event db e) request_ref = Some c
    /\ transactions (Store.save_event db e) = transactions db.
Proof.
  intros Hget Hparse Hc.
  rewrite (process_event_eq backend now db id ev Hget).
  rewrite process_event_try_eq, Hparse. cbn [bind].
  rewrite update_collection_from_webhook_raises. cbn [Py.is_str]. rewrite Hc.
  eexists. split; [reflexivity |]. split; [reflexivity |].
  split; [reflexivity |].
  split; [apply (get_event_saved db db id ev);
          [exact Hget | reflexivity | reflexivity] |].
  split; [exact Hc | reflexivity].
Qed.

(** C10.  A transition the state machine rejects is not saved: like every
    other call on a collection that exists, it raises [AttributeError] at
    [collection.metadata], before [save()].  For a delivery whose collection
    exists, [process_event] marks the event FAILED with that error and the
    row of the collection is the one that was there, whatever provider
    reference the payload held.  So at a collection at SUCCESS, the webhook
    "failed" with provider reference [pwa-2] is rejected by [should_update],
    the event ends FAILED, not PROCESSED, and the stored provider reference
    is still empty. *)
Theorem rejected_transition_raises :
  (forall backend now db id ev request_ref provider_ref s c,
      Store.get_event db id = Some ev ->
      WebhookService.parse_event ev = Ret (request_ref, provider_ref, PStr s) ->
      Store.get_collection db request_ref = Some c ->
      exists e,
        WebhookService.process_event backend now db id
        = Ret (e, Store.save_event db e)
        /\ we_status e = "FAILED"
        /\ we_error e
           = "Unexpected error: 'Collection' object has no attribute 'metadata'"
        /\ Store.get_event (Store.save_event db e) id = Some e
        /\ Store.get_collection (Store.save_event db e) request_ref = Some c
        /\ transactions (Store.save_event db e) = transactions db)
  /\ CollectionsIdempotency.should_update "SUCCESS"
       (CollectionsService.normalize_webhook_status Str.lower Str.upper
          "failed") false = false
  /\ CollectionsService.update_collection_from_webhook Str.lower Str.upper
       (Example.db_r1 "SUCCESS" "SUCCESS") (PStr "r1") (PStr "pwa-2")
       (PStr "failed")
       (PDict [("request_ref", PStr "r1"); ("status", PStr "failed");
               ("provider_ref", PStr "pwa-2")]) PNone false
     = Raise (AttributeError "Collection" "metadata")
  /\ exists e db',
       WebhookService.process_event Locking.NoRedis 9
         (Example.with_events (Example.db_r1 "SUCCESS" "SUCCESS")
            [Example.received 0 "paywithaccount"
               (PDict [("request_ref", PStr "r1"); ("status", PStr "failed");
                       ("provider_ref", PStr "pwa-2")])]) 0
       = Ret (e, db')
       /\ we_status e = "FAILED"
       /\ we_error e
          = "Unexpected error: 'Collection' object has no attribute 'metadata'"
       /\ option_map c_provider_ref (Store.get_collection db' (PStr "r1"))
          = Some PNone.
Proof.
  split; [exact process_event_found |].
  split; [reflexivity |].
  split; [reflexivity |].
  eexists. eexists. repeat split; reflexivity.
Qed.

(** C10 at a collection at FAILED hearing "success". *)
Lemma rejected_transition_raises_witness :
  exists e,
    WebhookService.process_event Locking.NoRedis 9
      (Example.with_events (Example.db_r1 "FAILED" "FAILED")
         [Example.received 0 "paywithaccount" Example.delivery]) 0
    = Ret (e, Store.save_event
                (Example.with_events (Example.db_r1 "FAILED" "FAILED")
                   [Example.received 0 "paywithaccount" Example.delivery]) e)
    /\ we_status e = "FAILED".
Proof.
  destruct (proj1 rejected_transition_raises Locking.NoRedis 9
              (Example.with_events (Example.db_r1 "FAILED" "FAILED")
                 [Example.received 0 "paywithaccount" Example.delivery]) 0
              (Example.received 0 "paywithaccount" Example.delivery)
              (PStr "r1") (PStr "") "success" (Example.collection_r1 "FAILED")
              eq_refl eq_refl eq_refl)
    as (e & Heq & Hst & _).
  exists e. split; assumption.
Defined.

(** ** C2: status history *)

Lemma new_status_of_cases (normalized_status : string) (needs_validation : bool) :
  In (CollectionsService.new_status_of normalized_status needs_validation)
     Spec.internal_statuses.
Proof.
  unfold CollectionsService.new_status_of, Spec.internal_statuses.
  destruct (String.eqb normalized_status "SUCCESS"); [simpl; tauto |].
  destruct (String.eqb normalized_status "FAILED"); [simpl; tauto |].
  destruct needs_validation; simpl; tauto.
Qed.

(** No operation of a run stores anything: the webhook update and the
    validation raise, and a poll either raises or confirms what is stored. *)
Lemma apply_unchanged (lower upper : string -> string)
    (settings : Normalization.Settings) (request_ref : PyVal) (db : DB)
    (op : Runs.Operation) :
  Runs.apply lower upper settings request_ref db op = db.
Proof.
  destruct op as [pr st pl rb | now_iso reply | now_iso reply];
    cbn [Runs.apply].
  - now rewrite update_collection_from_webhook_raises.
  - destruct (Store.get_collection db request_ref) as [c |]; [| reflexivity].
    destruct (CollectionsService.query_collection_status settings now_iso db c
                reply) as [[c' db'] | e] eqn:Hq; [| reflexivity].
    apply query_collection_status_inv in Hq. cbn. now destruct Hq as (_ & -> & _).
  - destruct (Store.get_collection db request_ref) as [c |]; [| reflexivity].
    now rewrite validate_collection_raises.
Qed.

Lemma run_unchanged (lower upper : string -> string)
    (settings : Normalization.Settings) (request_ref : PyVal)
    (ops : list Runs.Operation) (db : DB) :
  Runs.run lower upper settings request_ref db ops = db.
Proof.
  unfold Runs.run. induction ops as [| op ops IH]; [reflexivity |].
  cbn [fold_left]. rewrite apply_unchanged. exact IH.
Qed.

(** C2.  Over every run of webhook updates (without override), polls and
    validations on the collection of a request reference, the stored status
    never loses rank from one point of the run to a later one, and once it
    is SUCCESS or FAILED it stays what it is.  It holds because no operation
    of the run stores a status at all: the database after the run is the
    database before it. *)
Theorem status_history_monotone
    (lower upper : string -> string) (settings : Normalization.Settings)
    (request_ref : PyVal) (db : DB) (earlier later : list Runs.Operation)
    (c : Collection) :
  Store.get_collection db request_ref = Some c ->
  exists c1 c2,
    Store.get_collection
      (Runs.run lower upper settings request_ref db earlier) request_ref
    = Some c1
    /\ Store.get_collection
         (Runs.run lower upper settings request_ref db (earlier ++ later))
         request_ref
       = Some c2
    /\ Spec.rank (c_status c1) <= Spec.rank (c_status c2)
    /\ (Spec.terminal (c_status c1) -> c_status c2 = c_status c1)
    /\ Runs.run lower upper settings request_ref db (earlier ++ later) = db.
Proof.
  intros Hget. exists c, c. rewrite !run_unchanged.
  repeat split; try assumption. lia.
Qed.

(** C2 at a collection at SUCCESS that hears the webhook "failed", is polled
    with the answer "pending", and hears the webhook "pending". *)
Lemma status_history_monotone_witness :
  exists c2,
    Store.get_collection
      (Runs.run Str.lower Str.upper None (PStr "r1")
         (Example.db_r1 "SUCCESS" "SUCCESS")
         [Runs.Webhook (PStr "") (PStr "failed") Example.delivery PNone;
          Runs.Poll "2026-01-29T10:30:00"
            (Ret (PDict [("status", PStr "pending")]));
          Runs.Webhook (PStr "") (PStr "pending") Example.delivery PNone])
      (PStr "r1")
    = Some c2
    /\ c_status c2 = "SUCCESS".
Proof.
  destruct (status_history_monotone Str.lower Str.upper None (PStr "r1")
              (Example.db_r1 "SUCCESS" "SUCCESS") []
              [Runs.Webhook (PStr "") (PStr "failed") Example.delivery PNone;
               Runs.Poll "2026-01-29T10:30:00"
                 (Ret (PDict [("status", PStr "pending")]));
               Runs.Webhook (PStr "") (PStr "pending") Example.delivery PNone]
              (Example.collection_r1 "SUCCESS") eq_refl)
    as (c1 & c2 & H1 & H2 & _ & Hterm & _).
  exists c2. split; [exact H2 |].
  injection H1 as <-. apply Hterm. now left.
Defined.

(** ** C3: duplicate deliveries *)

(** [receive_event] on an event id that is already stored returns the stored
    row and leaves the database as it is. *)
Lemma receive_event_duplicate
    (backend : Locking.Backend) (celery : bool) (now : nat)
    (hmac : string -> string -> string) (secret : string)
    (concurrent : DB -> DB) (db : DB) (provider : string) (payload : PyVal)
    (request_ref : PyVal) (e : string) (payload_str : option string)
    (x : PayloadParser.Extracted) (existing : WebhookEvent) :
  PayloadParser.extract_from_payload payload provider = Ret x ->
  e <> "" ->
  Store.get_event_by_event_id db e = Some existing ->
  WebhookService.receive_event backend celery now hmac secret concurrent db
    provider payload None request_ref (Some e) payload_str
  = Ret (existing, db).
Proof.
  intros Hx He Hdup. unfold WebhookService.receive_event.
  cbn [WebhookService.opt_truthy andb bind negb]. rewrite Hx. cbn [bind].
  destruct e as [| ch rest]; [congruence |].
  cbn [WebhookService.opt_truthy Str.is_empty negb bind
       WebhookService.or_empty].
  now rewrite Hdup.
Qed.

(** [receive_event] that loses the insert: the id was not stored at the
    duplicate check, a concurrent worker stored it before the insert; the
    winner's row is returned and nothing is processed here. *)
Lemma receive_event_race_loser
    (backend : Locking.Backend) (celery : bool) (now : nat)
    (hmac : string -> string -> string) (secret : string)
    (concurrent : DB -> DB) (db : DB) (provider : string) (payload : PyVal)
    (request_ref : PyVal) (e : string) (payload_str : option string)
    (x : PayloadParser.Extracted) (winner : WebhookEvent) :
  PayloadParser.extract_from_payload payload provider = Ret x ->
  e <> "" ->
  Store.get_event_by_event_id db e = None ->
  Store.get_event_by_event_id (concurrent db) e = Some winner ->
  WebhookService.receive_event backend celery now hmac secret concurrent db
    provider payload None request_ref (Some e) payload_str
  = Ret (winner, concurrent db).
Proof.
  intros Hx He Hnew Hwon. unfold WebhookService.receive_event.
  cbn [WebhookService.opt_truthy andb bind negb]. rewrite Hx. cbn [bind].
  destruct e as [| ch rest]; [congruence |].
  cbn [WebhookService.opt_truthy Str.is_empty negb bind
       WebhookService.or_empty].
  rewrite Hnew. unfold Store.create_event. rewrite Hwon. reflexivity.
Qed.

(** C3.  [receive_paywithaccount_event], the entry point the webhook view
    calls, stores no event id and looks for no duplicate: the delivery with
    event id [evt_1] handed to it twice leaves two rows, none of them with
    [event_id = "evt_1"], and each was processed at its own time.
    [receive_event] on the same delivery leaves one row with that event id,
    processed once, and returns the winner's row when it loses the insert to
    a concurrent worker. *)
Theorem paywithaccount_entry_point_stores_duplicates :
  List.length (Example.events_after Example.twice_paywithaccount) = 2
  /\ map we_event_id (Example.events_after Example.twice_paywithaccount)
     = [None; None]
  /\ map we_processed_at (Example.events_after Example.twice_paywithaccount)
     = [Some 1; Some 2]
  /\ map we_event_id (Example.events_after Example.twice_receive_event)
     = [Some "evt_1"]
  /\ map we_processed_at (Example.events_after Example.twice_receive_event)
     = [Some 1]
  /\ (exists db, Example.receive_losing_race = Ret (Example.winner, db)
                 /\ events db = [Example.winner]).
Proof.
  repeat split; try reflexivity.
  eexists. split; reflexivity.
Qed.

(** * Further properties of the code *)

(** ** Case and blanks *)

Lemma upper_char_idem (c : ascii) :
  Str.upper_char (Str.upper_char c) = Str.upper_char c.
Proof. destruct c as [[] [] [] [] [] [] [] []]; vm_compute; reflexivity. Qed.

Lemma lower_upper_char (c : ascii) :
  Str.lower_char (Str.upper_char c) = Str.lower_char c.
Proof. destruct c as [[] [] [] [] [] [] [] []]; vm_compute; reflexivity. Qed.

Lemma upper_lower_char (c : ascii) :
  Str.upper_char (Str.lower_char c) = Str.upper_char c.
Proof. destruct c as [[] [] [] [] [] [] [] []]; vm_compute; reflexivity. Qed.

Lemma str_map_map (f g h : ascii -> ascii) (s : string) :
  (forall c, f (g c) = h c) -> Str.map f (Str.map g s) = Str.map h s.
Proof.
  intros H. induction s as [| c r IH]; simpl; [reflexivity |].
  now rewrite H, IH.
Qed.

Lemma upper_idem (s : string) : Str.upper (Str.upper s) = Str.upper s.
Proof. apply str_map_map, upper_char_idem. Qed.

Lemma lower_upper (s : string) : Str.lower (Str.upper s) = Str.lower s.
Proof. apply str_map_map, lower_upper_char. Qed.

Lemma upper_lower (s : string) : Str.upper (Str.lower s) = Str.upper s.
Proof. apply str_map_map, upper_lower_char. Qed.

Lemma lower_char_idem (c : ascii) :
  Str.lower_char (Str.lower_char c) = Str.lower_char c.
Proof. destruct c as [[] [] [] [] [] [] [] []]; vm_compute; reflexivity. Qed.

Lemma lower_idem (s : string) : Str.lower (Str.lower s) = Str.lower s.
Proof. apply str_map_map, lower_char_idem. Qed.

Lemma str_map_empty (f : ascii -> ascii) (s : string) :
  Str.map f s = "" <-> s = "".
Proof. destruct s; simpl; split; congruence. Qed.

Lemma lstrip_head (s : string) :
  Str.lstrip s = ""
  \/ exists c r, Str.lstrip s = String c r /\ Str.is_space c = false.
Proof.
  induction s as [| c r IH]; simpl; [now left |].
  destruct (Str.is_space c) eqn:Hc; [exact IH |].
  right. now exists c, r.
Qed.

Lemma rstrip_idem (s : string) : Str.rstrip (Str.rstrip s) = Str.rstrip s.
Proof.
  induction s as [| c r IH]; simpl; [reflexivity |].
  destruct (Str.rstrip r) as [| d r'] eqn:Hr.
  - destruct (Str.is_space c) eqn:Hc; simpl; [reflexivity | now rewrite Hc].
  - change (Str.rstrip (String c (String d r')))
      with (match Str.rstrip (String d r') with
            | "" => if Str.is_space c then "" else String c ""
            | r'' => String c r''
            end).
    now rewrite IH.
Qed.

Lemma rstrip_keeps_head (c : ascii) (r : string) :
  Str.is_space c = false -> exists r', Str.rstrip (String c r) = String c r'.
Proof.
  intros Hc. simpl. destruct (Str.rstrip r) as [| d r'].
  - rewrite Hc. now exists "".
  - now exists (String d r').
Qed.

Lemma strip_idem (s : string) : Str.strip (Str.strip s) = Str.strip s.
Proof.
  unfold Str.strip.
  destruct (lstrip_head s) as [-> | (c & r & -> & Hc)]; [reflexivity |].
  destruct (rstrip_keeps_head c r Hc) as [r' Hr'].
  assert (Hl : Str.lstrip (Str.rstrip (String c r)) = Str.rstrip (String c r)).
  { rewrite Hr'. simpl. now rewrite Hc. }
  now rewrite Hl, rstrip_idem.
Qed.

(** The key the normalizer looks up is a fixed point of upper-casing and
    trimming. *)
Lemma normal_key_idem (s : string) :
  Str.strip (Str.upper (Str.strip (Str.upper s))) = Str.strip (Str.upper s).
Proof.
  now rewrite (strip_upper (Str.strip (Str.upper s))), strip_idem, strip_upper,
    upper_idem, <- strip_upper.
Qed.

Lemma dict_lookup_filter {V : Type} (p : string -> bool) (k : string)
    (d : list (string * V)) :
  p k = true ->
  Dict.lookup k (filter (fun kv => p (fst kv)) d) = Dict.lookup k d.
Proof.
  intros Hp. induction d as [| [k' v] d IH]; simpl; [reflexivity |].
  destruct (String.eqb_spec k k') as [<- | Hne].
  - rewrite Hp. simpl. now rewrite String.eqb_refl.
  - destruct (p k'); simpl; [| exact IH].
    apply string_eqb_false_iff in Hne. now rewrite Hne.
Qed.

(** ** The normalizer and its table *)

(** X1.  For every configured table, [normalize_provider_status] gives the
    same answer on a text (ASCII case mapping, as in [Str]), on its upper-cased and on its lower-cased form,
    and on its trimmed form when that is not empty. *)
Theorem normalizer_ignores_case_and_blanks
    (settings : Normalization.Settings) (s : string) :
  Normalization.normalize_provider_status settings (PStr (Str.upper s))
  = Normalization.normalize_provider_status settings (PStr s)
  /\ Normalization.normalize_provider_status settings (PStr (Str.lower s))
     = Normalization.normalize_provider_status settings (PStr s)
  /\ (Str.strip s <> "" ->
      Normalization.normalize_provider_status settings (PStr (Str.strip s))
      = Normalization.normalize_provider_status settings (PStr s)).
Proof.
  destruct (string_dec s "") as [-> | Hne].
  { repeat split; reflexivity. }
  assert (Hu : Str.upper s <> "") by (unfold Str.upper; now rewrite str_map_empty).
  assert (Hl : Str.lower s <> "") by (unfold Str.lower; now rewrite str_map_empty).
  split; [| split].
  - rewrite (normalize_string settings _ Hu), (normalize_string settings _ Hne).
    now rewrite upper_idem.
  - rewrite (normalize_string settings _ Hl), (normalize_string settings _ Hne).
    now rewrite upper_lower.
  - intros Hs.
    rewrite (normalize_string settings _ Hs), (normalize_string settings _ Hne).
    now rewrite (strip_upper (Str.strip s)), strip_idem, <- strip_upper.
Qed.

(** X1 at a text with blanks around it. *)
Lemma normalizer_ignores_case_and_blanks_witness :
  Normalization.normalize_provider_status None (PStr (Str.strip "  Paid "))
  = Normalization.normalize_provider_status None (PStr "  Paid ").
Proof.
  apply (proj2 (proj2 (normalizer_ignores_case_and_blanks None "  Paid "))).
  vm_compute. discriminate.
Defined.

Lemma lookup_of_checked {V : Type} (eqb : V -> V -> bool) (m : list (string * V)) :
  (forall a b, eqb a b = true -> a = b) ->
  forallb (fun kv => match Dict.lookup (fst kv) m with
                     | Some v => eqb v (snd kv)
                     | None => false
                     end) m = true ->
  forall k v, In (k, v) m -> Dict.lookup k m = Some v.
Proof.
  intros Heqb Hall k v Hin. rewrite forallb_forall in Hall.
  specialize (Hall _ Hin). cbn in Hall.
  destruct (Dict.lookup k m) as [v' |]; [| discriminate].
  now rewrite (Heqb _ _ Hall).
Qed.

(** X2.  Only keys that are their own upper-cased, trimmed form are ever
    looked up: removing every other entry from a configured table changes no
    answer.  In the default table every entry is live: a text whose key is
    the entry's key gets the entry's value (no key is shadowed by an earlier
    one). *)
Theorem normalizer_table_entries :
  (forall m v,
      Normalization.normalize_provider_status
        (Some (filter (fun kv => Runs.normal_key (fst kv)) m)) v
      = Normalization.normalize_provider_status (Some m) v)
  /\ (forall k r s,
         In (k, r) Normalization.DEFAULT_STATUS_MAP ->
         Str.strip (Str.upper s) = k ->
         Normalization.normalize_provider_status None (PStr s) = Ret r).
Proof.
  split.
  - intros m v. destruct (Py.is_str v) eqn:Hstr.
    + destruct v; try discriminate.
      destruct (string_dec s "") as [-> | Hne]; [reflexivity |].
      rewrite !(normalize_string _ s Hne). cbn [Normalization._get_status_map].
      rewrite (dict_lookup_filter Runs.normal_key); [reflexivity |].
      unfold Runs.normal_key. rewrite normal_key_idem. apply String.eqb_refl.
    + now rewrite !normalize_not_a_string.
  - intros k r s Hin Hkey.
    apply (normalize_term s k r); [| exact Hkey].
    clear Hkey. revert k r Hin.
    apply (lookup_of_checked
             (fun a b => String.eqb (fst a) (fst b) && Bool.eqb (snd a) (snd b))).
    + intros [a1 a2] [b1 b2] H. cbn in H. apply andb_true_iff in H as [H1 H2].
      apply String.eqb_eq in H1. apply Bool.eqb_prop in H2. now subst.
    + vm_compute. reflexivity.
Qed.

(** X2 at the entry of the default table for a declined payment. *)
Lemma normalizer_table_entries_witness :
  Normalization.normalize_provider_status None (PStr " declined")
  = Ret ("FAILED", false).
Proof.
  apply (proj2 normalizer_table_entries "DECLINED" ("FAILED", false) " declined");
    [vm_compute; tauto | reflexivity].
Defined.

(** ** What a webhook update does *)

(** X5.  [update_collection_from_webhook] never returns.  A status that is
    not a string raises [AttributeError] on [.lower] before the collection
    is looked up; a string status for an unknown request reference raises
    [CollectionError] with the reference in its text; and on a collection
    that exists the method raises [AttributeError] at [collection.metadata].
    The outcome does not depend on the case mapping, the status word, the
    provider reference, the payload, the response body or the override. *)
Theorem webhook_update_outcomes
    (lower upper : string -> string) (db : DB)
    (request_ref provider_ref new_status payload response_body : PyVal)
    (allow_override : bool) :
  (forall r,
      CollectionsService.update_collection_from_webhook lower upper db
        request_ref provider_ref new_status payload response_body
        allow_override <> Ret r)
  /\ (Py.is_str new_status = false ->
      CollectionsService.update_collection_from_webhook lower upper db
        request_ref provider_ref new_status payload response_body
        allow_override
      = Raise (AttributeError (Py.type_name new_status) "lower"))
  /\ (Py.is_str new_status = true ->
      Store.get_collection db request_ref = None ->
      CollectionsService.update_collection_from_webhook lower upper db
        request_ref provider_ref new_status payload response_body
        allow_override
      = Raise (CollectionError
                 ("Collection not found for request_ref=" ++ Py.str request_ref)))
  /\ (forall c,
         Py.is_str new_status = true ->
         Store.get_collection db request_ref = Some c ->
         CollectionsService.update_collection_from_webhook lower upper db
           request_ref provider_ref new_status payload response_body
           allow_override
         = Raise (AttributeError "Collection" "metadata"))
  /\ (forall lower' upper' provider_ref' new_status' payload' response_body'
             allow_override',
         Py.is_str new_status' = Py.is_str new_status ->
         Py.type_name new_status' = Py.type_name new_status ->
         CollectionsService.update_collection_from_webhook lower' upper' db
           request_ref provider_ref' new_status' payload' response_body'
           allow_override'
         = CollectionsService.update_collection_from_webhook lower upper db
             request_ref provider_ref new_status payload response_body
             allow_override).
Proof.
  split.
  { intros r. rewrite update_collection_from_webhook_raises. discriminate. }
  split.
  { intros Hs. now rewrite update_collection_from_webhook_raises, Hs. }
  split.
  { intros Hs Hc. now rewrite update_collection_from_webhook_raises, Hs, Hc. }
  split.
  { intros c Hs Hc. now rewrite update_collection_from_webhook_raises, Hs, Hc. }
  intros lower' upper' pr' st' pl' rb' ov' Hs Ht.
  now rewrite !update_collection_from_webhook_raises, Hs, Ht.
Qed.

(** X5 at the sample collection hearing "success", and at an unknown
    request reference. *)
Lemma webhook_update_outcomes_witness :
  CollectionsService.update_collection_from_webhook Str.lower Str.upper
    (Example.db_r1 "INITIATED" "PENDING") (PStr "r1") (PStr "pwa-9")
    (PStr "success") Example.delivery PNone false
  = Raise (AttributeError "Collection" "metadata")
  /\ CollectionsService.update_collection_from_webhook Str.lower Str.upper
       (Example.db_r1 "INITIATED" "PENDING") (PStr "r2") (PStr "pwa-9")
       (PStr "success") Example.delivery PNone false
     = Raise (CollectionError "Collection not found for request_ref=r2").
Proof.
  pose proof (webhook_update_outcomes Str.lower Str.upper
                (Example.db_r1 "INITIATED" "PENDING") (PStr "r1") (PStr "pwa-9")
                (PStr "success") Example.delivery PNone false)
    as (_ & _ & _ & Hfound & _).
  pose proof (webhook_update_outcomes Str.lower Str.upper
                (Example.db_r1 "INITIATED" "PENDING") (PStr "r2") (PStr "pwa-9")
                (PStr "success") Example.delivery PNone false)
    as (_ & _ & Hmissing & _).
  split.
  - exact (Hfound (Example.collection_r1 "INITIATED") eq_refl eq_refl).
  - exact (Hmissing eq_refl eq_refl).
Defined.

(** ** One stored delivery *)

Lemma get_event_other (db : DB) (e : WebhookEvent) (id' : nat) :
  id' <> we_id e ->
  Store.get_event (Store.save_event db e) id' = Store.get_event db id'.
Proof.
  intros Hne. unfold Store.get_event, Store.save_event. cbn.
  induction (events db) as [| x l IH]; [reflexivity |]. cbn.
  destruct (Nat.eqb (we_id x) (we_id e)) eqn:Hx.
  - apply Nat.eqb_eq in Hx.
    assert (H1 : Nat.eqb (we_id e) id' = false) by (apply Nat.eqb_neq; congruence).
    assert (H2 : Nat.eqb (we_id x) id' = false) by (apply Nat.eqb_neq; congruence).
    now rewrite H1, H2.
  - destruct (Nat.eqb (we_id x) id'); [reflexivity | exact IH].
Qed.

(** X8.  [process_event] on a stored event returns, and the event it returns
    is FAILED with an error text: no delivery is ever marked PROCESSED.  The
    database it leaves is the one before the call with the event row
    rewritten, so no collection and no transaction is written.  Once parsing
    has given the arguments, the error text tells which of the three ways
    the update raised: the status was not a string, the collection was not
    found, or the collection was found and has no [metadata]. *)
Theorem process_event_outcome
    (backend : Locking.Backend) (now : nat) (db : DB) (id : nat)
    (ev : WebhookEvent) :
  Store.get_event db id = Some ev ->
  exists e,
    WebhookService.process_event backend now db id
    = Ret (e, Store.save_event db e)
    /\ we_status e = "FAILED"
    /\ we_error e <> ""
    /\ collections (Store.save_event db e) = collections db
    /\ transactions (Store.save_event db e) = transactions db
    /\ forall request_ref provider_ref status,
         WebhookService.parse_event ev
         = Ret (request_ref, provider_ref, status) ->
         we_error e
         = if Py.is_str status then
             match Store.get_collection db request_ref with
             | Some _ =>
                 "Unexpected error: 'Collection' object has no attribute 'metadata'"
             | None =>
                 "CollectionError: Collection not found for request_ref="
                 ++ Py.str request_ref
             end
           else "Unexpected error: '" ++ Py.type_name status
                ++ "' object has no attribute 'lower'".
Proof.
  intros Hget.
  destruct (process_event_failed backend now db id ev Hget) as (err & Htry & Heq).
  eexists. split; [exact Heq |].
  split; [reflexivity |].
  split; [apply error_text_not_empty |].
  split; [reflexivity |]. split; [reflexivity |].
  intros rr pr st Hparse. cbn [we_error WebhookService.finished].
  rewrite process_event_try_eq, Hparse in Htry. cbn [bind] in Htry.
  rewrite update_collection_from_webhook_raises in Htry.
  injection Htry as <-.
  destruct (Py.is_str st); [| reflexivity].
  destruct (Store.get_collection db rr); reflexivity.
Qed.

(** X8 at the sample delivery. *)
Lemma process_event_outcome_witness :
  exists e,
    WebhookService.process_event Locking.NoRedis 4
      (Example.with_events (Example.db_r1 "INITIATED" "PENDING")
         [Example.received 0 "paywithaccount" Example.delivery]) 0
    = Ret (e, Store.save_event
                (Example.with_events (Example.db_r1 "INITIATED" "PENDING")
                   [Example.received 0 "paywithaccount" Example.delivery]) e)
    /\ we_status e = "FAILED"
    /\ we_error e
       = "Unexpected error: 'Collection' object has no attribute 'metadata'".
Proof.
  destruct (process_event_outcome Locking.NoRedis 4
              (Example.with_events (Example.db_r1 "INITIATED" "PENDING")
                 [Example.received 0 "paywithaccount" Example.delivery]) 0
              (Example.received 0 "paywithaccount" Example.delivery) eq_refl)
    as (e & Heq & Hst & _ & _ & _ & Herr).
  exists e. split; [exact Heq |]. split; [exact Hst |].
  exact (Herr (PStr "r1") (PStr "") (PStr "success") eq_refl).
Defined.

(** X9.  [process_event] writes one event row and nothing else of the event
    table: the row keeps its id, provider, event id, request reference,
    payload and signature, gets the time of the call, and can be read back;
    every other event reads as before, and the task queue is untouched. *)
Theorem process_event_frame
    (backend : Locking.Backend) (now : nat) (db : DB) (id : nat)
    (ev : WebhookEvent) :
  Store.get_event db id = Some ev ->
  exists e db',
    WebhookService.process_event backend now db id = Ret (e, db')
    /\ Store.get_event db' id = Some e
    /\ we_id e = id /\ we_provider e = we_provider ev
    /\ we_event_id e = we_event_id ev /\ we_request_ref e = we_request_ref ev
    /\ we_payload e = we_payload ev /\ we_signature e = we_signature ev
    /\ we_processed_at e = Some now
    /\ queue db' = queue db
    /\ List.length (events db') = List.length (events db)
    /\ forall id', id' <> id -> Store.get_event db' id' = Store.get_event db id'.
Proof.
  intros Hget.
  pose proof (get_event_id db id ev Hget) as Hid.
  destruct (process_event_failed backend now db id ev Hget) as (err & _ & Heq).
  eexists. eexists. split; [exact Heq |].
  split; [apply (get_event_saved db db id ev);
          [exact Hget | reflexivity | reflexivity] |].
  repeat split; try reflexivity; try assumption.
  - cbn. now rewrite length_map.
  - intros id' Hne. apply get_event_other. cbn. congruence.
Qed.

(** X9 at two stored deliveries: processing the first leaves the second. *)
Lemma process_event_frame_witness :
  exists e db',
    WebhookService.process_event Locking.NoRedis 4
      (Example.with_events (Example.db_r1 "INITIATED" "PENDING")
         [Example.received 0 "paywithaccount" Example.delivery;
          Example.received 1 "paywithaccount" Example.delivery]) 0
    = Ret (e, db')
    /\ Store.get_event db' 1
       = Some (Example.received 1 "paywithaccount" Example.delivery).
Proof.
  destruct (process_event_frame Locking.NoRedis 4
              (Example.with_events (Example.db_r1 "INITIATED" "PENDING")
                 [Example.received 0 "paywithaccount" Example.delivery;
                  Example.received 1 "paywithaccount" Example.delivery]) 0
              (Example.received 0 "paywithaccount" Example.delivery) eq_refl)
    as (e & db' & Heq & _ & _ & _ & _ & _ & _ & _ & _ & _ & _ & Hother).
  exists e, db'. split; [exact Heq |].
  rewrite (Hother 1 ltac:(discriminate)). reflexivity.
Defined.

(** X10.  Processing a stored event again (a retry of the task, a second
    worker) ends with the same status and error text and leaves the
    collections and the transactions exactly as the first processing left
    them, whatever the lock backends and the times of the two runs. *)
Theorem process_event_idempotent
    (backend backend' : Locking.Backend) (now now' : nat) (db : DB) (id : nat)
    (e1 : WebhookEvent) (db1 : DB) :
  WebhookService.process_event backend now db id = Ret (e1, db1) ->
  exists e2 db2,
    WebhookService.process_event backend' now' db1 id = Ret (e2, db2)
    /\ we_status e2 = we_status e1
    /\ we_error e2 = we_error e1
    /\ collections db2 = collections db1
    /\ transactions db2 = transactions db1.
Proof.
  intros Hfirst.
  destruct (Store.get_event db id) as [ev |] eqn:Hget.
  2: { unfold WebhookService.process_event in Hfirst. rewrite Hget in Hfirst.
       discriminate. }
  destruct (process_event_failed backend now db id ev Hget) as (err & Htry & Heq).
  rewrite Heq in Hfirst. injection Hfirst as <- <-.
  set (e1 := WebhookService.finished ev "FAILED"
               (WebhookService.error_text err) now).
  assert (Hget1 : Store.get_event (Store.save_event db e1) id = Some e1).
  { apply (get_event_saved db db id ev); [exact Hget | reflexivity | reflexivity]. }
  destruct (process_event_failed backend' now' (Store.save_event db e1) id e1
              Hget1) as (err' & Htry' & Heq').
  destruct (process_event_try_stable backend backend' db (Store.save_event db e1)
              ev e1 eq_refl eq_refl eq_refl) as (err0 & H0 & H0').
  assert (Herr : err' = err) by congruence.
  subst err'. eexists. eexists. split; [exact Heq' |]. repeat split.
Qed.

(** X10 at the sample delivery, processed at times 4 and 9. *)
Lemma process_event_idempotent_witness :
  exists e1 db1 e2 db2,
    WebhookService.process_event Locking.NoRedis 4
      (Example.with_events (Example.db_r1 "INITIATED" "PENDING")
         [Example.received 0 "paywithaccount" Example.delivery]) 0
    = Ret (e1, db1)
    /\ WebhookService.process_event Locking.NoRedis 9 db1 0 = Ret (e2, db2)
    /\ we_status e2 = we_status e1
    /\ we_error e2 = we_error e1.
Proof.
  eexists. eexists.
  destruct (process_event_idempotent Locking.NoRedis Locking.NoRedis 4 9
              (Example.with_events (Example.db_r1 "INITIATED" "PENDING")
                 [Example.received 0 "paywithaccount" Example.delivery]) 0
              _ _ eq_refl)
    as (e2 & db2 & Heq & Hst & Herr & _).
  exists e2, db2. split; [reflexivity |]. split; [exact Heq |].
  split; assumption.
Defined.

(** ** Receiving deliveries *)

Lemma find_app_none {A : Type} (p : A -> bool) (l l' : list A) :
  find p l = None -> find p (l ++ l') = find p l'.
Proof.
  induction l as [| x l IH]; simpl; [reflexivity |].
  destruct (p x); [discriminate | exact IH].
Qed.

Lemma find_app_some {A : Type} (p : A -> bool) (l l' : list A) (x : A) :
  find p l = Some x -> find p (l ++ l') = Some x.
Proof.
  induction l as [| y l IH]; simpl; [discriminate |].
  destruct (p y); [trivial | exact IH].
Qed.

Lemma first_non_empty_nonempty (payload : PyVal) (paths : list (list string))
    (s : string) :
  Utils._first_non_empty payload paths = Ret (Some s) -> s <> "".
Proof.
  induction paths as [| path rest IH]; simpl; [discriminate |].
  destruct (get_by_path_returns payload path) as [val ->]. cbn [bind].
  destruct (Py.is_none val); [exact IH |].
  destruct (String.eqb_spec (if Py.is_str val then Str.strip (Py.str val)
                             else Py.str val) "") as [Heq | Hne];
    [exact IH |].
  intros [= <-]. exact Hne.
Qed.

(** The event id [receive_event] works with is absent or not empty. *)
Lemma resolved_event_id (event_id : option string) (payload : PyVal)
    (resolved : option string) :
  (if negb (WebhookService.opt_truthy event_id)
   then Utils.extract_event_id payload else Ret event_id) = Ret resolved ->
  resolved = None \/ WebhookService.opt_truthy resolved = true.
Proof.
  destruct (WebhookService.opt_truthy event_id) eqn:Ht; cbn [negb].
  - intros [= <-]. now right.
  - destruct resolved as [e |]; [| now left].
    intros H. apply first_non_empty_nonempty in H. right.
    destruct e; [congruence | reflexivity].
Qed.

(** Where [process_event] leaves the event table. *)
Lemma process_event_shape (backend : Locking.Backend) (now : nat) (db : DB)
    (id : nat) (ev : WebhookEvent) :
  Store.get_event db id = Some ev ->
  exists e d,
    WebhookService.process_event backend now db id
    = Ret (e, Store.save_event d e)
    /\ events d = events db /\ queue d = queue db
    /\ we_id e = we_id ev /\ we_event_id e = we_event_id ev.
Proof.
  intros Hget.
  destruct (process_event_failed backend now db id ev Hget) as (err & _ & Heq).
  eexists. exists db. split; [exact Heq |]. repeat split.
Qed.

(** X11.  [receive_event] is idempotent on a delivery that carries an event
    id: when a first receipt returned a row with an event id (the fresh
    primary key not being in use), a second receipt of the same delivery,
    with no other worker in between, returns the stored row of that event id
    and leaves the database exactly as it was: no second row, no second
    processing, no second task. *)
Theorem receive_event_twice
    (backend backend' : Locking.Backend) (celery celery' : bool)
    (now now' : nat) (hmac : string -> string -> string) (secret : string)
    (db : DB) (provider : string) (payload : PyVal)
    (signature_header : option string) (request_ref : PyVal)
    (event_id payload_str : option string)
    (ev1 : WebhookEvent) (db1 : DB) (e : string) :
  Store.get_event db (List.length (events db)) = None ->
  WebhookService.receive_event backend celery now hmac secret (fun d => d) db
    provider payload signature_header request_ref event_id payload_str
  = Ret (ev1, db1) ->
  we_event_id ev1 = Some e ->
  exists row,
    WebhookService.receive_event backend' celery' now' hmac secret (fun d => d)
      db1 provider payload signature_header request_ref event_id payload_str
    = Ret (row, db1)
    /\ Store.get_event_by_event_id db1 e = Some row
    /\ we_id row = we_id ev1
    /\ we_event_id row = Some e.
Proof.
  intros Hfresh. unfold WebhookService.receive_event.
  destruct (if WebhookService.opt_truthy signature_header
               && WebhookService.opt_truthy payload_str
            then WebhookService.verify_signature hmac secret
                   (WebhookService.or_empty payload_str)
                   (WebhookService.or_empty signature_header) provider
            else Ret true) as [verified | err]; cbn [bind]; [| discriminate].
  destruct verified; cbn [negb]; [| discriminate].
  destruct (PayloadParser.extract_from_payload payload provider) as [x | err];
    cbn [bind]; [| discriminate].
  destruct (if negb (WebhookService.opt_truthy event_id)
            then Utils.extract_event_id payload else Ret event_id)
    as [resolved | err] eqn:Hres; cbn [bind]; [| discriminate].
  apply resolved_event_id in Hres.
  destruct Hres as [-> | Htruthy].
  { (* no event id at all: the created row has none *)
    cbn [WebhookService.opt_truthy]. unfold Store.create_event.
    destruct celery.
    - intros [= <- <-]. discriminate.
    - match goal with
      | |- context [WebhookService.process_event ?b ?n ?d ?i] =>
          destruct (WebhookService.process_event b n d i) as [r | err]
      end; cbn [bind]; [| discriminate].
      intros [= <- <-]. discriminate. }
  rewrite Htruthy.
  destruct resolved as [e0 |]; [| discriminate]. cbn [WebhookService.or_empty].
  destruct (Store.get_event_by_event_id db e0) as [existing |] eqn:Hdup.
  { intros [= <- <-] He. rewrite Hdup.
    assert (He0 : e = e0).
    { pose proof (find_some _ _ Hdup) as [_ Hp]. cbn in Hp.
      rewrite He in Hp. now apply String.eqb_eq in Hp. }
    subst e0. exists existing. repeat split; assumption. }
  unfold Store.create_event at 1. rewrite Hdup.
  set (row := mkWebhookEvent (List.length (events db)) provider (Some e0) _
                payload (WebhookService.or_empty signature_header) "RECEIVED"
                "" None).
  set (dbc := Store.set_events db (events db ++ [row])).
  assert (Hstored : Store.get_event_by_event_id dbc e0 = Some row).
  { unfold Store.get_event_by_event_id, dbc. cbn [events Store.set_events].
    rewrite find_app_none by exact Hdup. cbn. now rewrite String.eqb_refl. }
  assert (Hrow : Store.get_event dbc (List.length (events db)) = Some row).
  { unfold Store.get_event, dbc. cbn [events Store.set_events].
    rewrite find_app_none by exact Hfresh. cbn. now rewrite Nat.eqb_refl. }
  destruct celery.
  - intros [= <- <-] He. cbn in He. injection He as <-.
    assert (Hs : Store.get_event_by_event_id
                   (Store.enqueue dbc (List.length (events db))) e0 = Some row)
      by exact Hstored.
    rewrite Hs. exists row. repeat split.
  - cbn [we_id row].
    destruct (process_event_shape backend now dbc _ row Hrow)
      as (e1 & d & Heq & Hev & _ & Hid & Heid).
    rewrite Heq. cbn [bind snd]. intros [= <- <-] He. cbn in He.
    injection He as <-.
    assert (Hs : Store.get_event_by_event_id (Store.save_event d e1) e0
                 = Some e1).
    { unfold Store.get_event_by_event_id, Store.save_event. cbn. rewrite Hev.
      apply (find_replace _ (fun z => Nat.eqb (we_id z) (we_id e1)) _ row).
      - exact Hstored.
      - rewrite Hid. apply Nat.eqb_refl.
      - rewrite Heid. cbn. apply String.eqb_refl. }
    rewrite Hs. exists e1. repeat split; assumption.
Qed.

(** X11 at the sample delivery, received twice with inline processing. *)
Lemma receive_event_twice_witness :
  exists ev1 db1 row,
    Example.receive_alone 1 (Example.db_r1 "INITIATED" "PENDING")
    = Ret (ev1, db1)
    /\ Example.receive_alone 2 db1 = Ret (row, db1)
    /\ we_event_id row = Some "evt_1".
Proof.
  eexists. eexists.
  destruct (receive_event_twice Locking.NoRedis Locking.NoRedis false false 1 2
              (fun _ _ => "") "" (Example.db_r1 "INITIATED" "PENDING")
              "paywithaccount" Example.delivery None PNone None None
              _ _ "evt_1" eq_refl eq_refl eq_refl)
    as (row & Heq & _ & _ & Hid).
  exists row. split; [reflexivity |]. split; [exact Heq | exact Hid].
Defined.

(** X12.  The signature check of [receive_event].  With a secret
    configured, a PayWithAccount or OnePipe delivery that comes with a
    signature header and a raw body is refused before anything is stored
    unless the header is the HMAC of the body: with [WebhookError] when the
    header is an ASCII text other than the digest, and with the [TypeError]
    of [hmac.compare_digest], which nothing catches, when the header is not
    ASCII.  The check only runs when both the header and the raw body are
    given and not empty: without one of them, or for any other provider,
    the delivery is handled exactly as if no secret were configured. *)
Theorem signature_gate
    (backend : Locking.Backend) (celery : bool) (now : nat)
    (hmac : string -> string -> string) (secret : string)
    (concurrent : DB -> DB) (db : DB) (provider : string) (payload : PyVal)
    (signature_header : option string) (request_ref : PyVal)
    (event_id payload_str : option string) :
  (forall s p,
      signature_header = Some s -> payload_str = Some p ->
      s <> "" -> p <> "" -> secret <> "" ->
      Str.mem (Str.lower provider) ["paywithaccount"; "onepipe"] = true ->
      Str.is_ascii (hmac secret p) = true ->
      (Str.is_ascii s = true -> hmac secret p <> s ->
       WebhookService.receive_event backend celery now hmac secret concurrent
         db provider payload signature_header request_ref event_id payload_str
       = Raise (WebhookError "Webhook signature verification failed"))
      /\ (Str.is_ascii s = false ->
          WebhookService.receive_event backend celery now hmac secret
            concurrent db provider payload signature_header request_ref
            event_id payload_str
          = Raise (TypeError
                     "comparing strings with non-ASCII characters is not supported")))
  /\ (WebhookService.opt_truthy signature_header
      && WebhookService.opt_truthy payload_str = false
      \/ Str.mem (Str.lower provider) ["paywithaccount"; "onepipe"] = false ->
      forall hmac',
        WebhookService.receive_event backend celery now hmac secret concurrent db
          provider payload signature_header request_ref event_id payload_str
        = WebhookService.receive_event backend celery now hmac' "" concurrent db
            provider payload signature_header request_ref event_id payload_str).
Proof.
  split.
  - intros s p -> -> Hs Hp Hsecret Hprov Hdigest.
    unfold WebhookService.receive_event, WebhookService.verify_signature,
      WebhookService.compare_digest.
    destruct s as [| c1 s']; [congruence |].
    destruct p as [| c2 p']; [congruence |].
    destruct secret as [| c3 secret']; [congruence |].
    cbn [WebhookService.opt_truthy WebhookService.or_empty Str.is_empty negb andb].
    rewrite Hprov, Hdigest. cbn [andb]. split.
    + intros Hascii Hbad. rewrite Hascii. cbn [bind].
      apply string_eqb_false_iff in Hbad. now rewrite Hbad.
    + intros Hascii. now rewrite Hascii.
  - intros Hskip hmac'. unfold WebhookService.receive_event.
    assert (Hguard : forall h sec,
               (if WebhookService.opt_truthy signature_header
                   && WebhookService.opt_truthy payload_str
                then WebhookService.verify_signature h sec
                       (WebhookService.or_empty payload_str)
                       (WebhookService.or_empty signature_header) provider
                else Ret true) = Ret true).
    { intros h sec. destruct Hskip as [-> | Hprov]; [reflexivity |].
      unfold WebhookService.verify_signature. rewrite Hprov.
      destruct (_ && _); [| reflexivity].
      destruct (Str.is_empty sec); reflexivity. }
    now rewrite !Hguard.
Qed.

(** X12 at a delivery signed with the wrong digest. *)
Lemma signature_gate_witness :
  WebhookService.receive_event Locking.NoRedis false 1
    (fun _ _ => "5f2c") "s3cr3t" (fun d => d)
    (Example.db_r1 "INITIATED" "PENDING") "paywithaccount" Example.delivery
    (Some "0000") PNone None (Some "{}")
  = Raise (WebhookError "Webhook signature verification failed").
Proof.
  apply (proj1 (signature_gate Locking.NoRedis false 1 (fun _ _ => "5f2c")
                  "s3cr3t" (fun d => d) (Example.db_r1 "INITIATED" "PENDING")
                  "paywithaccount" Example.delivery (Some "0000") PNone None
                  (Some "{}")) "0000" "{}");
    try reflexivity; discriminate.
Defined.

Lemma find_app_last {A : Type} (p : A -> bool) (l : list A) (x : A) :
  p x = true -> exists y, find p (l ++ [x]) = Some y.
Proof.
  intros Hx. induction l as [| z l IH]; simpl.
  - rewrite Hx. now exists x.
  - destruct (p z); [now exists z | exact IH].
Qed.

(** X13.  [receive_paywithaccount_event] returns exactly when the parser
    returns on the payload: processing errors are swallowed.  The row it
    returns is RECEIVED, carries the payload and no event id, and the event
    table has one row more; with the task queue, no collection and no
    transaction is touched and the id of the row is queued. *)
Theorem paywithaccount_receipt
    (backend : Locking.Backend) (celery : bool) (now : nat) (db : DB)
    (payload : PyVal) (signature : option string) :
  (returns (WebhookService.receive_paywithaccount_event backend celery now db
              payload signature)
   <-> returns (PayloadParser._extract_paywithaccount payload))
  /\ (forall ev db',
         WebhookService.receive_paywithaccount_event backend celery now db
           payload signature = Ret (ev, db') ->
         we_event_id ev = None /\ we_status ev = "RECEIVED"
         /\ we_provider ev = "paywithaccount" /\ we_payload ev = payload
         /\ List.length (events db') = S (List.length (events db))
         /\ (celery = true ->
             collections db' = collections db
             /\ transactions db' = transactions db
             /\ queue db' = (queue db ++ [we_id ev])%list)).
Proof.
  unfold WebhookService.receive_paywithaccount_event, Store.create_event.
  destruct (PayloadParser._extract_paywithaccount payload) as [x | err];
    cbn [bind].
  - set (row := mkWebhookEvent _ _ _ _ _ _ _ _ _).
    set (dbc := Store.set_events db (events db ++ [row])).
    assert (Hlen : List.length (events dbc) = S (List.length (events db))).
    { unfold dbc. cbn. rewrite length_app. cbn. lia. }
    destruct celery.
    + split; [split; intros _; eexists; reflexivity |].
      intros ev db' [= <- <-]. repeat split. exact Hlen.
    + unfold WebhookService.process_webhook_event.
      destruct (find_app_last (fun e => Nat.eqb (we_id e) (we_id row))
                  (events db) row (Nat.eqb_refl _)) as [ev0 Hev0].
      destruct (process_event_shape backend now dbc (we_id row) ev0 Hev0)
        as (e1 & d & Heq & Hev & _).
      rewrite Heq.
      split; [split; intros _; eexists; reflexivity |].
      intros ev db' [= <- <-]. repeat split; try discriminate.
      cbn. now rewrite length_map, Hev.
  - split; [split; intros [r Hr]; discriminate |]. discriminate.
Qed.

(** X13 at the sample delivery handed to the task queue. *)
Lemma paywithaccount_receipt_witness :
  exists ev db',
    WebhookService.receive_paywithaccount_event Locking.NoRedis true 1
      (Example.db_r1 "INITIATED" "PENDING") Example.delivery None
    = Ret (ev, db')
    /\ collections db' = collections (Example.db_r1 "INITIATED" "PENDING")
    /\ queue db' = [we_id ev].
Proof.
  eexists. eexists. split; [reflexivity |].
  destruct (proj2 (paywithaccount_receipt Locking.NoRedis true 1
                     (Example.db_r1 "INITIATED" "PENDING") Example.delivery None)
              _ _ eq_refl) as (_ & _ & _ & _ & _ & Hq).
  destruct (Hq eq_refl) as (Hc & _ & Hqueue).
  split; [exact Hc | exact Hqueue].
Defined.

(** ** The processing lock *)

Lemma acquire_redis_flag (l : Locking.ProcessingLock)
    (replies : list Locking.RedisReply) :
  Locking.acquired l = false ->
  Locking.acquired (snd (Locking._acquire_redis l replies))
  = fst (Locking._acquire_redis l replies).
Proof.
  intros Hl. induction replies as [| r rest IH]; cbn; [exact Hl |].
  destruct r; [reflexivity | exact IH | reflexivity].
Qed.

Lemma acquire_redis_timeout (l : Locking.ProcessingLock)
    (replies : list Locking.RedisReply) :
  fst (Locking._acquire_redis l replies) = false
  <-> Forall (fun r => r = Locking.SetBusy) replies.
Proof.
  induction replies as [| r rest IH]; cbn.
  - split; [constructor | reflexivity].
  - destruct r; cbn.
    + split; [discriminate | intros H; inversion H; discriminate].
    + rewrite IH. split; [now constructor | intros H; now inversion H].
    + split; [discriminate | intros H; inversion H; discriminate].
Qed.

Lemma acquire_redis_client (l : Locking.ProcessingLock)
    (replies : list Locking.RedisReply) :
  Locking.redis_client (snd (Locking._acquire_redis l replies))
  = Locking.redis_client l.
Proof.
  induction replies as [| r rest IH]; cbn; [reflexivity |].
  destruct r; [reflexivity | exact IH | reflexivity].
Qed.

(** X14.  For a lock as [ProcessingLock(...)] builds it: [acquire] answers
    false only when there is a Redis client and every poll of the wait
    window found the key taken; a Redis error counts as acquired (the DB
    fallback).  The [acquired] flag is the answer of [acquire].  [release]
    on a lock that was never acquired answers false and changes nothing;
    after [acquire] and [release] the flag is down, and [release] answers
    true only if the lock was acquired and either there is no Redis client
    or the release script deleted the key. *)
Theorem lock_protocol
    (backend : Locking.Backend) (k : string) (t w : nat)
    (l : Locking.ProcessingLock) :
  Locking.init backend k t w = Ret l ->
  (fst (Locking.acquire l) = false
   <-> exists replies rel,
         backend = Locking.Redis replies rel
         /\ Forall (fun r => r = Locking.SetBusy) replies)
  /\ Locking.acquired (snd (Locking.acquire l)) = fst (Locking.acquire l)
  /\ Locking.release l = (false, l)
  /\ Locking.acquired (snd (Locking.release (snd (Locking.acquire l)))) = false
  /\ (fst (Locking.release (snd (Locking.acquire l))) = true
      <-> fst (Locking.acquire l) = true
          /\ (backend = Locking.NoRedis
              \/ exists replies, backend = Locking.Redis replies (Ret true))).
Proof.
  destruct backend as [| e | replies rel]; cbn; [| discriminate |].
  - intros [= <-]. cbn. repeat split; try discriminate; try tauto.
    intros (replies & rel & H & _). discriminate.
  - intros [= <-]. unfold Locking.acquire, Locking.release. cbn [Locking.redis_client].
    set (l0 := Locking.mkLock k t w (Some (replies, rel)) false).
    pose proof (acquire_redis_flag l0 replies eq_refl) as Hflag.
    pose proof (acquire_redis_timeout l0 replies) as Htime.
    assert (Hclient : Locking.redis_client (snd (Locking._acquire_redis l0 replies))
                      = Some (replies, rel)).
    { now rewrite acquire_redis_client. }
    split.
    { rewrite Htime. split.
      - intros H. now exists replies, rel.
      - intros (r' & rel' & [= <- <-] & H). exact H. }
    split; [exact Hflag |].
    split; [reflexivity |].
    destruct (Locking._acquire_redis l0 replies) as [b l1] eqn:Hacq.
    cbn [fst snd] in *. rewrite Hflag, Hclient.
    destruct b; cbn [negb].
    + destruct rel as [[] | e]; cbn.
      * split; [reflexivity |]. split; [| reflexivity].
        intros _. split; [reflexivity |]. right. now exists replies.
      * split; [reflexivity |]. split; [discriminate |].
        intros [_ [H | [r' H]]]; [discriminate H |].
        injection H as _ H. discriminate H.
      * split; [reflexivity |]. split; [discriminate |].
        intros [_ [H | [r' H]]]; [discriminate H |].
        injection H as _ H. discriminate H.
    + cbn. split; [exact Hflag |]. split; [discriminate |].
      intros [H _]. discriminate H.
Qed.

(** X14 at a lock whose Redis is busy for three polls: not acquired. *)
Lemma lock_protocol_witness :
  fst (Locking.acquire
         (Locking.mkLock "webhook_processing:r1" 30 10
            (Some (repeat Locking.SetBusy 3, Ret false)) false)) = false.
Proof.
  apply (proj2 (proj1 (lock_protocol
                         (Locking.Redis (repeat Locking.SetBusy 3) (Ret false))
                         "webhook_processing:r1" 30 10 _ eq_refl))).
  eexists. eexists. split; [reflexivity |]. repeat constructor.
Defined.

(** ** The extractors of [webhooks/utils.py] *)

Lemma first_non_empty_cons (payload : PyVal) (path : list string)
    (rest : list (list string)) :
  Utils._first_non_empty payload (path :: rest)
  = match Candidates.text_at payload path with
    | Some s => Ret (Some s)
    | None => Utils._first_non_empty payload rest
    end.
Proof.
  unfold Candidates.text_at. cbn [Utils._first_non_empty].
  destruct (get_by_path_returns payload path) as [val ->]. cbn [bind].
  destruct (Py.is_none val); [reflexivity |].
  destruct (String.eqb _ ""); reflexivity.
Qed.

(** X15.  Each of [extract_request_ref], [extract_provider_ref],
    [extract_status], [extract_currency] and [extract_event_id] returns on
    every payload without raising; what it returns is never the empty
    string; and on a payload that is not a dict it returns [None].
    [extract_amount] does the same as long as [float()] raises nothing but
    [ValueError]. *)
Theorem utils_extractors_total (payload : PyVal) :
  (forall f,
      In f Candidates.string_extractors ->
      exists r,
        f payload = Ret r /\ r <> Some ""
        /\ (Py.is_dict payload = false -> r = None))
  /\ (forall float_of_str,
         (forall s e, float_of_str s = Raise e -> exists m, e = ValueError m) ->
         exists r,
           Utils.extract_amount float_of_str payload = Ret r
           /\ (Py.is_dict payload = false -> r = PNone)).
Proof.
  assert (Hgen : forall paths,
             exists r,
               Utils._first_non_empty payload paths = Ret r /\ r <> Some ""
               /\ (Py.is_dict payload = false -> r = None)).
  { intros paths.
    destruct (first_non_empty_returns payload paths) as [r Hr].
    exists r. split; [exact Hr |]. split.
    - intros ->. now apply first_non_empty_nonempty in Hr.
    - intros Hd. rewrite (first_non_empty_non_dict payload paths Hd) in Hr.
      congruence. }
  split.
  - intros f Hin. unfold Candidates.string_extractors in Hin. simpl in Hin.
    destruct Hin as [<- | [<- | [<- | [<- | [<- | []]]]]]; apply Hgen.
  - intros float_of_str Hfloat. unfold Utils.extract_amount.
    match goal with
    | |- context [Utils._first_numeric float_of_str payload ?ps] =>
        destruct (first_numeric_returns float_of_str payload ps Hfloat)
          as [r Hr];
        exists r; split; [exact Hr |];
        intros Hd;
        rewrite (first_numeric_non_dict float_of_str payload ps Hd) in Hr
    end.
    congruence.
Qed.

(** X15 at [extract_status] on a JSON array. *)
Lemma utils_extractors_total_witness :
  exists r, Utils.extract_status (PList [PStr "success"]) = Ret r /\ r = None.
Proof.
  destruct (proj1 (utils_extractors_total (PList [PStr "success"]))
              Utils.extract_status) as (r & Heq & _ & Hnone).
  { right. right. left. reflexivity. }
  exists r. split; [exact Heq | now apply Hnone].
Defined.

(** X16.  Order of preference in [_first_non_empty]: the first candidate
    path that yields a non-empty text wins, whatever the later paths hold;
    the result is [None] exactly when no path yields one; and a text taken
    from a string value has no blanks around it. *)
Theorem first_candidate_wins (payload : PyVal) :
  (forall before path after s,
      (forall q, In q before -> Candidates.text_at payload q = None) ->
      Candidates.text_at payload path = Some s ->
      Utils._first_non_empty payload (before ++ path :: after) = Ret (Some s))
  /\ (forall paths,
         Utils._first_non_empty payload paths = Ret None
         <-> forall q, In q paths -> Candidates.text_at payload q = None)
  /\ (forall path t s,
         Utils._get_by_path payload path = Ret (PStr t) ->
         Candidates.text_at payload path = Some s ->
         s = Str.strip t /\ Str.strip s = s).
Proof.
  split; [| split].
  - intros before path after s Hbefore Hpath.
    induction before as [| q before IH]; cbn [app].
    + now rewrite first_non_empty_cons, Hpath.
    + rewrite first_non_empty_cons, (Hbefore q (or_introl eq_refl)).
      apply IH. intros q' Hq'. apply Hbefore. now right.
  - intros paths. induction paths as [| p rest IH].
    + split; [intros _ q [] | reflexivity].
    + rewrite first_non_empty_cons.
      destruct (Candidates.text_at payload p) as [s |] eqn:Hp.
      * split; [discriminate |]. intros H.
        specialize (H p (or_introl eq_refl)). congruence.
      * rewrite IH. split.
        -- intros H q [<- | Hq]; [exact Hp | now apply H].
        -- intros H q Hq. apply H. now right.
  - intros path t s Hget. unfold Candidates.text_at. rewrite Hget.
    cbn [Py.is_none Py.is_str Py.str].
    destruct (String.eqb (Str.strip t) ""); [discriminate |].
    intros [= <-]. split; [reflexivity | apply strip_idem].
Qed.

(** X16 at a payload with a blank top-level reference and a nested one. *)
Lemma first_candidate_wins_witness :
  Utils._first_non_empty
    (PDict [("request_ref", PStr "  ");
            ("data", PDict [("reference", PStr " r-77 ")])])
    ([["request_ref"]] ++ ["data"; "reference"] :: [["meta"; "request_ref"]])
  = Ret (Some "r-77").
Proof.
  apply (proj1 (first_candidate_wins _)).
  - intros q [<- | []]. reflexivity.
  - reflexivity.
Defined.

(** X17.  [_get_by_path] follows a path piece by piece: looking up a path
    followed by a non-empty rest is looking up the path and then the rest
    from what was found (a missing key, a null or a value that is not a dict
    on the way give [None]).  On a dict, a one-key path is the dict's own
    lookup, with null read as missing. *)
Theorem get_by_path_composes (payload : PyVal) :
  (forall p q,
      q <> [] ->
      Utils._get_by_path payload (p ++ q)
      = (v <- Utils._get_by_path payload p ;; Utils._get_by_path v q))
  /\ (forall d k,
         Utils._get_by_path (PDict d) [k]
         = Ret (match Dict.lookup k d with Some v => v | None => PNone end)).
Proof.
  split.
  - intros p q Hq.
    assert (Hq' : forall v, Py.is_dict v = false ->
                            Utils.get_by_path_loop v q = Ret PNone).
    { intros v Hv. destruct q as [| k q]; [congruence |]. cbn. now rewrite Hv. }
    assert (Hloop : forall node,
               Utils.get_by_path_loop node (p ++ q)
               = (v <- Utils.get_by_path_loop node p ;;
                  Utils._get_by_path v q)).
    { induction p as [| k p IH]; intros node; cbn [app].
      - cbn. unfold Utils._get_by_path.
        destruct (Py.is_dict node) eqn:Hd; cbn [negb]; [reflexivity |].
        now apply Hq'.
      - cbn [Utils.get_by_path_loop].
        destruct (Py.is_dict node) eqn:Hd; cbn [negb].
        + destruct node; try discriminate. cbn [Py.get bind].
          destruct (Py.is_none _); [reflexivity | apply IH].
        + reflexivity. }
    unfold Utils._get_by_path at 1 2.
    destruct (Py.is_dict payload) eqn:Hd; cbn [negb]; [apply Hloop |].
    reflexivity.
  - intros d k. cbn. unfold Dict.get_default.
    destruct (Dict.lookup k d) as [v |]; [| reflexivity].
    destruct v; reflexivity.
Qed.

(** X17 at a two-level payload. *)
Lemma get_by_path_composes_witness :
  Utils._get_by_path
    (PDict [("data", PDict [("meta", PDict [("id", PInt 7)])])])
    (["data"] ++ ["meta"; "id"])
  = (v <- Utils._get_by_path
            (PDict [("data", PDict [("meta", PDict [("id", PInt 7)])])])
            ["data"] ;;
     Utils._get_by_path v ["meta"; "id"]).
Proof.
  apply (proj1 (get_by_path_composes _)). discriminate.
Defined.

(** ** The payload parser *)

Lemma or_returns (a b : Exc PyVal) :
  returns a -> returns b -> returns (Py.or_ a b).
Proof.
  intros [x ->] Hb. unfold Py.or_. cbn [bind].
  destruct (Py.truthy x); [now exists x | exact Hb].
Qed.

Lemma getk_returns (d : list (string * PyVal)) (k : string) :
  returns (PayloadParser.getk (PDict d) k).
Proof. eexists. reflexivity. Qed.

Lemma get_nested_returns (d : list (string * PyVal)) (outer k : string) :
  (forall v, Dict.lookup outer d = Some v -> Py.is_dict v = true) ->
  returns (PayloadParser.get_nested (PDict d) outer k).
Proof.
  intros H. unfold PayloadParser.get_nested. cbn [Py.get bind].
  unfold Dict.get_default.
  destruct (Dict.lookup outer d) as [v |] eqn:Hl.
  - specialize (H v eq_refl). destruct v; try discriminate.
    eexists. reflexivity.
  - eexists. reflexivity.
Qed.

(** X18.  Where the parser of webhook processing is safe.  On a dict whose
    [meta], [data] and [transaction] are absent or dicts, the PayWithAccount
    extraction returns; the generic extraction returns on every dict; and on
    a payload that is not a dict both raise [AttributeError] at the first
    [.get], whatever the provider. *)
Theorem payload_parser_safe_domain :
  (forall d,
      (forall k v, In k ["meta"; "data"; "transaction"] ->
                   Dict.lookup k d = Some v -> Py.is_dict v = true) ->
      returns (PayloadParser._extract_paywithaccount (PDict d)))
  /\ (forall d, returns (PayloadParser._extract_generic (PDict d)))
  /\ (forall payload provider,
         Py.is_dict payload = false ->
         PayloadParser.extract_from_payload payload provider
         = Raise (AttributeError (Py.type_name payload) "get")).
Proof.
  split; [| split].
  - intros d Hd.
    assert (Hmeta := get_nested_returns d "meta" "request_ref"
                       (fun v => Hd "meta" v ltac:(simpl; auto))).
    assert (Hdata := fun k => get_nested_returns d "data" k
                       (fun v => Hd "data" v ltac:(simpl; auto))).
    assert (Htx := get_nested_returns d "transaction" "status"
                     (fun v => Hd "transaction" v ltac:(simpl; auto))).
    unfold PayloadParser._extract_paywithaccount.
    match goal with
    | |- returns (bind ?m _) =>
        assert (H1 : returns m)
          by (repeat apply or_returns; try apply getk_returns; assumption);
        destruct H1 as [rr ->]
    end. cbn [bind].
    match goal with
    | |- returns (bind ?m _) =>
        assert (H2 : returns m)
          by (repeat apply or_returns; try apply getk_returns; apply Hdata);
        destruct H2 as [pr ->]
    end. cbn [bind].
    match goal with
    | |- returns (bind ?m _) =>
        assert (H3 : returns m)
          by (repeat apply or_returns; try apply getk_returns;
              try assumption; try apply Hdata; eexists; reflexivity);
        destruct H3 as [st ->]
    end. cbn [bind]. eexists. reflexivity.
  - intros d. unfold PayloadParser._extract_generic.
    match goal with
    | |- returns (bind ?m _) =>
        assert (H1 : returns m)
          by (repeat apply or_returns; apply getk_returns);
        destruct H1 as [rr ->]
    end. cbn [bind].
    match goal with
    | |- returns (bind ?m _) =>
        assert (H2 : returns m)
          by (repeat apply or_returns; apply getk_returns);
        destruct H2 as [pr ->]
    end. cbn [bind]. eexists. reflexivity.
  - intros payload provider Hd. unfold PayloadParser.extract_from_payload.
    destruct (Str.mem _ _); destruct payload; try discriminate; reflexivity.
Qed.

(** X18 at a payload whose [data] is a dict and whose other containers are
    absent. *)
Lemma payload_parser_safe_domain_witness :
  returns (PayloadParser._extract_paywithaccount
             (PDict [("data", PDict [("status", PStr "ok")])])).
Proof.
  apply (proj1 payload_parser_safe_domain).
  intros k v _. cbn.
  destruct (String.eqb k "data"); [intros [= <-]; reflexivity | discriminate].
Defined.

(** X19.  Precedence in the PayWithAccount extraction: a non-empty top-level
    [request_ref], [provider_ref] or [status] is what the extraction
    returns, whatever else the payload holds; and when [reference] is the
    only reference in the payload, it is returned both as request reference
    and as provider reference. *)
Theorem payload_parser_precedence
    (d : list (string * PyVal)) (x : PayloadParser.Extracted) :
  PayloadParser._extract_paywithaccount (PDict d) = Ret x ->
  (forall v, Dict.lookup "request_ref" d = Some v -> Py.truthy v = true ->
             PayloadParser.request_ref x = v)
  /\ (forall v, Dict.lookup "provider_ref" d = Some v -> Py.truthy v = true ->
                PayloadParser.provider_ref x = v)
  /\ (forall v, Dict.lookup "status" d = Some v -> Py.truthy v = true ->
                PayloadParser.status x = v)
  /\ (forall v,
         Dict.lookup "reference" d = Some v -> Py.truthy v = true ->
         (forall k, In k ["request_ref"; "requestRef"; "ref"; "provider_ref";
                          "providerRef"; "transaction_ref"; "transactionRef"] ->
                    Dict.lookup k d = None) ->
         PayloadParser.request_ref x = v /\ PayloadParser.provider_ref x = v).
Proof.
  unfold PayloadParser._extract_paywithaccount.
  match goal with |- bind ?m _ = _ -> _ => destruct m as [rr | e] eqn:H1 end;
    [cbn [bind] | discriminate].
  match goal with |- bind ?m _ = _ -> _ => destruct m as [pr | e] eqn:H2 end;
    [cbn [bind] | discriminate].
  match goal with |- bind ?m _ = _ -> _ => destruct m as [st | e] eqn:H3 end;
    [cbn [bind] | discriminate].
  intros [= <-]. cbn [PayloadParser.request_ref PayloadParser.provider_ref
                      PayloadParser.status].
  unfold Py.or_, PayloadParser.getk, Py.get, Dict.get_default in H1, H2, H3.
  cbn [bind] in H1, H2, H3.
  split; [| split; [| split]].
  - intros v Hl Hv. rewrite Hl, Hv in H1. congruence.
  - intros v Hl Hv. rewrite Hl, Hv in H2. congruence.
  - intros v Hl Hv. rewrite Hl, Hv in H3. congruence.
  - intros v Hl Hv Hnone.
    rewrite (Hnone "request_ref"), (Hnone "requestRef"), (Hnone "ref"), Hl in H1
      by (simpl; tauto).
    rewrite (Hnone "provider_ref"), (Hnone "providerRef"),
      (Hnone "transaction_ref"), (Hnone "transactionRef"), Hl in H2
      by (simpl; tauto).
    cbn in H1, H2. rewrite Hv in H1, H2. split; congruence.
Qed.

(** X19 at the payload of the webhook view's own example. *)
Lemma payload_parser_precedence_witness :
  PayloadParser.request_ref
    (PayloadParser.mkExtracted (PStr "abc123") (PStr "pwa123") (PStr "success"))
  = PStr "abc123".
Proof.
  apply (proj1 (payload_parser_precedence
                  [("request_ref", PStr "abc123"); ("status", PStr "success");
                   ("reference", PStr "pwa123")]
                  (PayloadParser.mkExtracted (PStr "abc123") (PStr "pwa123")
                     (PStr "success")) eq_refl));
    reflexivity.
Defined.

(** ** Validation and polling *)

Lemma query_collection_status_errors
    (settings : Normalization.Settings) (now_iso : string) (db : DB)
    (c : Collection) (reply : Exc PyVal) (e : PyExc) :
  CollectionsService.query_collection_status settings now_iso db c reply
  = Raise e ->
  exists msg, e = CollectionError msg.
Proof.
  unfold CollectionsService.query_collection_status.
  match goal with |- (if ?b then _ else _) = _ -> _ => destruct b end.
  - intros [= <-]. eexists. reflexivity.
  - apply wrap_errors_raises.
Qed.

(** X20.  [query_collection_status] raises nothing but [CollectionError]:
    its guard raises it, and whatever the provider client or the handling of
    its answer raises is wrapped into it.  [validate_collection] never
    returns, whatever the provider would answer: on a collection that is not
    PENDING it raises [CollectionError], and on a PENDING collection the
    guard on [collection.metadata], which stands before the [try], raises a
    bare [AttributeError]. *)
Theorem service_errors
    (settings : Normalization.Settings) (now_iso : string) (db : DB)
    (c : Collection) (reply : Exc PyVal) :
  (forall e,
      CollectionsService.query_collection_status settings now_iso db c reply
      = Raise e ->
      exists msg, e = CollectionError msg)
  /\ (c_status c <> "PENDING" ->
      CollectionsService.validate_collection settings now_iso db c reply
      = Raise (CollectionError
                 ("Collection status is " ++ c_status c
                  ++ ", must be PENDING to validate")))
  /\ (c_status c = "PENDING" ->
      CollectionsService.validate_collection settings now_iso db c reply
      = Raise (AttributeError "Collection" "metadata")).
Proof.
  split.
  { intros e. apply query_collection_status_errors. }
  rewrite validate_collection_raises. split.
  - intros Hne. apply string_eqb_false_iff in Hne. now rewrite Hne.
  - intros ->. reflexivity.
Qed.

(** X20 at a provider client that fails during a poll, and at a validation
    of a PENDING collection. *)
Lemma service_errors_witness :
  (exists msg,
      CollectionsService.query_collection_status None "2026-01-29T10:30:00"
        (Example.db_r1 "PENDING" "PENDING") (Example.collection_r1 "PENDING")
        (Raise (PayWithAccountError "HTTP 503"))
      = Raise (CollectionError msg))
  /\ CollectionsService.validate_collection None "2026-01-29T10:30:00"
       (Example.db_r1 "PENDING" "PENDING") (Example.collection_r1 "PENDING")
       (Ret (PDict [("status", PStr "success")]))
     = Raise (AttributeError "Collection" "metadata").
Proof.
  pose proof (service_errors None "2026-01-29T10:30:00"
                (Example.db_r1 "PENDING" "PENDING")
                (Example.collection_r1 "PENDING")
                (Raise (PayWithAccountError "HTTP 503"))) as (Hq & _).
  pose proof (service_errors None "2026-01-29T10:30:00"
                (Example.db_r1 "PENDING" "PENDING")
                (Example.collection_r1 "PENDING")
                (Ret (PDict [("status", PStr "success")]))) as (_ & _ & Hv).
  split.
  - destruct (Hq _ eq_refl) as [msg Hm]. exists msg. rewrite <- Hm.
    reflexivity.
  - exact (Hv eq_refl).
Defined.

(** X21.  A poll writes nothing.  [query_collection_status] returns exactly
    when there is a reference to ask for and the provider's answer
    normalizes to the status that is stored; it then returns the collection
    and the database as they were.  The stored status of a poll that returns
    is therefore SUCCESS, FAILED or PENDING: a poll of a collection at
    INITIATED or CANCELLED never returns, and a poll that finds another
    status than the stored one raises [CollectionError]. *)
Theorem poll_effect
    (settings : Normalization.Settings) (now_iso : string) (db : DB)
    (c : Collection) (reply : Exc PyVal) :
  (forall c' db',
      CollectionsService.query_collection_status settings now_iso db c reply
      = Ret (c', db') ->
      c' = c /\ db' = db /\ In (c_status c) Spec.internal_statuses)
  /\ (returns (CollectionsService.query_collection_status settings now_iso db
                 c reply)
      <-> (Py.truthy (c_provider_ref c) = true \/ c_request_ref c <> "")
          /\ exists response_json provider_status norm,
               reply = Ret response_json
               /\ CollectionsService.response_status response_json
                  = Ret provider_status
               /\ Normalization.normalize_provider_status settings
                    provider_status = Ret norm
               /\ CollectionsService.new_status_of (fst norm) (snd norm)
                  = c_status c)
  /\ (forall response_json provider_status norm,
         reply = Ret response_json ->
         CollectionsService.response_status response_json
         = Ret provider_status ->
         Normalization.normalize_provider_status settings provider_status
         = Ret norm ->
         CollectionsService.new_status_of (fst norm) (snd norm) <> c_status c ->
         exists msg,
           CollectionsService.query_collection_status settings now_iso db c
             reply = Raise (CollectionError msg)).
Proof.
  assert (Href : Py.truthy (if Py.truthy (c_provider_ref c)
                            then c_provider_ref c
                            else PStr (c_request_ref c)) = true
                 <-> Py.truthy (c_provider_ref c) = true
                     \/ c_request_ref c <> "").
  { destruct (Py.truthy (c_provider_ref c)) eqn:Hp.
    - rewrite Hp. tauto.
    - cbn. destruct (c_request_ref c); cbn.
      + split; [discriminate |]. intros [H | H]; [discriminate | congruence].
      + split; [| reflexivity]. intros _. right. discriminate. }
  split.
  { intros c' db' Hq.
    destruct (query_collection_status_inv _ _ _ _ _ _ _ Hq)
      as (-> & -> & rj & ps & norm & _ & _ & _ & <-).
    repeat split. apply new_status_of_cases. }
  split.
  { split.
    - intros [[c' db'] Hq]. split.
      + apply Href. unfold CollectionsService.query_collection_status in Hq.
        match type of Hq with
        | (if negb ?b then _ else _) = _ => destruct b
        end; [reflexivity | discriminate].
      + destruct (query_collection_status_inv _ _ _ _ _ _ _ Hq)
          as (_ & _ & H). exact H.
    - intros [Hr (rj & ps & norm & -> & Hps & Hn & Hst)].
      apply Href in Hr. unfold CollectionsService.query_collection_status.
      rewrite Hr. cbn [negb bind]. rewrite Hps. cbn [bind]. rewrite Hn.
      cbn [bind]. rewrite Hst, String.eqb_refl. cbn [negb].
      eexists. reflexivity. }
  intros rj ps norm -> Hps Hn Hne.
  destruct (CollectionsService.query_collection_status settings now_iso db c
              (Ret rj)) as [[c' db'] | e] eqn:Hq.
  - destruct (query_collection_status_inv _ _ _ _ _ _ _ Hq)
      as (_ & _ & rj' & ps' & norm' & Hr & Hps' & Hn' & Hst').
    injection Hr as <-. rewrite Hps in Hps'. injection Hps' as <-.
    rewrite Hn in Hn'. injection Hn' as <-. contradiction.
  - destruct (query_collection_status_errors _ _ _ _ _ _ Hq) as [msg ->].
    exists msg. reflexivity.
Qed.

(** X21 at a poll that confirms SUCCESS, and at the same poll of a
    collection at INITIATED. *)
Lemma poll_effect_witness :
  CollectionsService.query_collection_status None "2026-01-29T10:30:00"
    (Example.db_r1 "SUCCESS" "SUCCESS") (Example.collection_r1 "SUCCESS")
    (Ret (PDict [("status", PStr "successful")]))
  = Ret (Example.collection_r1 "SUCCESS", Example.db_r1 "SUCCESS" "SUCCESS")
  /\ exists msg,
       CollectionsService.query_collection_status None "2026-01-29T10:30:00"
         (Example.db_r1 "INITIATED" "PENDING")
         (Example.collection_r1 "INITIATED")
         (Ret (PDict [("status", PStr "successful")]))
       = Raise (CollectionError msg).
Proof.
  split.
  - destruct (proj1 (poll_effect None "2026-01-29T10:30:00"
                       (Example.db_r1 "SUCCESS" "SUCCESS")
                       (Example.collection_r1 "SUCCESS")
                       (Ret (PDict [("status", PStr "successful")])))
                _ _ eq_refl) as (_ & _ & _).
    reflexivity.
  - exact (proj2 (proj2 (poll_effect None "2026-01-29T10:30:00"
                           (Example.db_r1 "INITIATED" "PENDING")
                           (Example.collection_r1 "INITIATED")
                           (Ret (PDict [("status", PStr "successful")]))))
             _ _ _ eq_refl eq_refl eq_refl ltac:(discriminate)).
Defined.

Lemma dict_lookup_set_other {V : Type} (k k' : string) (v : V)
    (d : list (string * V)) :
  k <> k' -> Dict.lookup k (Dict.set k' v d) = Dict.lookup k d.
Proof.
  intros Hne. apply string_eqb_false_iff in Hne.
  induction d as [| [k0 v0] d IH]; simpl.
  - now rewrite Hne.
  - destruct (String.eqb k' k0) eqn:Hk; simpl.
    + apply String.eqb_eq in Hk. subst k0. now rewrite Hne.
    + destruct (String.eqb k k0); [reflexivity | exact IH].
Qed.

(** ** The event cache *)

Lemma key_of_injective (a b : string) :
  IdempotencyChecker.key_of a = IdempotencyChecker.key_of b -> a = b.
Proof. unfold IdempotencyChecker.key_of. cbn. now intros [= ->]. Qed.

(** X23.  The event cache of [IdempotencyChecker].  A result cached under a
    non-empty event id on a Redis that answers is read back, decoded, at any
    time before its expiry and is gone from the expiry on; caching it leaves
    what is read under every other event id unchanged.  Without a client, or
    for an empty or missing event id, nothing is cached and nothing is
    found; a server that is down or a result that cannot be encoded makes
    caching answer false and leaves the store as it was. *)
Theorem event_cache_round_trip
    (json_dumps : PyVal -> Exc string) (json_loads : string -> Exc PyVal)
    (r : IdempotencyChecker.Redis) (now ttl : nat) (e text : string)
    (result : PyVal) :
  (IdempotencyChecker.up r = true -> e <> "" -> ttl <> 0 ->
   json_dumps result = Ret text -> text <> "" ->
   exists r',
     IdempotencyChecker.cache_event_result json_dumps (Some r) now (Some e)
       result ttl = (true, Some r')
     /\ (forall later,
            later < now + ttl ->
            IdempotencyChecker.get_cached_event_id json_loads (Some r') later
              (Some e)
            = match json_loads text with Ret v => v | Raise _ => PNone end)
     /\ (forall later,
            now + ttl <= later ->
            IdempotencyChecker.get_cached_event_id json_loads (Some r') later
              (Some e) = PNone)
     /\ (forall later other,
            other <> e ->
            IdempotencyChecker.get_cached_event_id json_loads (Some r') later
              (Some other)
            = IdempotencyChecker.get_cached_event_id json_loads (Some r) later
                (Some other)))
  /\ (forall client event_id,
         client = None \/ WebhookService.opt_truthy event_id = false ->
         IdempotencyChecker.cache_event_result json_dumps client now event_id
           result ttl = (false, client)
         /\ IdempotencyChecker.get_cached_event_id json_loads client now event_id
            = PNone)
  /\ (IdempotencyChecker.up r = false \/ ttl = 0
      \/ (exists err, json_dumps result = Raise err) ->
      forall event_id,
        IdempotencyChecker.cache_event_result json_dumps (Some r) now event_id
          result ttl = (false, Some r)).
Proof.
  split; [| split].
  - intros Hup He Httl Hdump Htext.
    unfold IdempotencyChecker.cache_event_result,
      IdempotencyChecker._cache_redis, IdempotencyChecker.redis_setex.
    destruct e as [| ch e']; [congruence |].
    cbn [WebhookService.opt_truthy Str.is_empty negb WebhookService.or_empty].
    rewrite Hdump, Hup. apply Nat.eqb_neq in Httl. rewrite Httl.
    eexists. split; [reflexivity |].
    unfold IdempotencyChecker.get_cached_event_id,
      IdempotencyChecker._get_cached_redis, IdempotencyChecker.redis_get.
    cbn [IdempotencyChecker.up IdempotencyChecker.entries].
    split; [| split].
    + intros later Hlater.
      cbn [WebhookService.opt_truthy Str.is_empty negb WebhookService.or_empty].
      rewrite dict_lookup_set.
      apply Nat.ltb_lt in Hlater. rewrite Hlater.
      destruct text; [congruence | reflexivity].
    + intros later Hlater.
      cbn [WebhookService.opt_truthy Str.is_empty negb WebhookService.or_empty].
      rewrite dict_lookup_set.
      apply Nat.ltb_ge in Hlater. now rewrite Hlater.
    + intros later other Hother.
      destruct (WebhookService.opt_truthy (Some other)); cbn [negb];
        [| reflexivity].
      cbn [WebhookService.or_empty].
      rewrite dict_lookup_set_other, Hup; [reflexivity |].
      intros Hk. apply key_of_injective in Hk. contradiction.
  - intros client event_id [-> | Hid].
    + unfold IdempotencyChecker.cache_event_result,
        IdempotencyChecker.get_cached_event_id.
      destruct (WebhookService.opt_truthy event_id); split; reflexivity.
    + unfold IdempotencyChecker.cache_event_result,
        IdempotencyChecker.get_cached_event_id.
      rewrite Hid. split; reflexivity.
  - intros Hbad event_id.
    unfold IdempotencyChecker.cache_event_result,
      IdempotencyChecker._cache_redis, IdempotencyChecker.redis_setex.
    destruct (WebhookService.opt_truthy event_id); cbn [negb]; [| reflexivity].
    destruct Hbad as [Hdown | [-> | [err Herr]]].
    + rewrite Hdown. destruct (json_dumps result); reflexivity.
    + destruct (json_dumps result); [| reflexivity].
      destruct (IdempotencyChecker.up r); reflexivity.
    + now rewrite Herr.
Qed.

(** X23 at an empty Redis, with an encoder that prints a fixed text. *)
Lemma event_cache_round_trip_witness :
  exists r',
    IdempotencyChecker.cache_event_result (fun _ => Ret "{}")
      (Some (IdempotencyChecker.mkRedis [] true)) 100 (Some "evt_1")
      (PDict []) 3600 = (true, Some r')
    /\ IdempotencyChecker.get_cached_event_id (fun _ => Ret (PDict []))
         (Some r') 200 (Some "evt_1") = PDict [].
Proof.
  destruct (proj1 (event_cache_round_trip (fun _ => Ret "{}")
                     (fun _ => Ret (PDict []))
                     (IdempotencyChecker.mkRedis [] true) 100 3600 "evt_1" "{}"
                     (PDict []))
              eq_refl ltac:(discriminate) ltac:(discriminate) eq_refl
              ltac:(discriminate))
    as (r' & Hcache & Hget & _).
  exists r'. split; [exact Hcache |].
  rewrite (Hget 200 ltac:(lia)). reflexivity.
Defined.
